(* ===================================================================== *)
(* parallel_density_compute.py: batch computation of SCF density         *)
(* matrices over a dataset, with per-item failure isolation.             *)
(*                                                                       *)
(* Shallow embedding of the script and proofs of its orchestration       *)
(* properties: index preservation of the per-item wrapper, partition of  *)
(* the result records into the success and error dictionaries, metadata  *)
(* counts, and the position of the single write in the run's trace.      *)
(* ===================================================================== *)

From Stdlib Require Import Ascii.
From stdpp Require Import base option list list_numbers sets fin_sets.
From stdpp Require Import gmap fin_maps fin_map_dom strings pretty sorting.

#[local] Set Warnings "-clear-no-such-hyp".

(* --------------------------------------------------------------------- *)
(* Python dictionaries                                                   *)
(* --------------------------------------------------------------------- *)

(** A Python [dict] with integer keys: the items in insertion order, every
    key at most once.  [d[k] = v] overwrites the value of a key already
    present (keeping its position) and appends a new key at the end. *)
Module PyDict.

Definition t (V : Type) : Type := list (nat * V).

Definition empty {V} : t V := [].

Fixpoint setitem {V} (k : nat) (v : V) (d : t V) : t V :=
  match d with
  | [] => [(k, v)]
  | (k', v') :: d' =>
      if decide (k = k') then (k, v) :: d' else (k', v') :: setitem k v d'
  end.

(** [len(d)] *)
Definition len {V} (d : t V) : nat := length d.

(** [list(d.keys())] *)
Definition keys {V} (d : t V) : list nat := d.*1.

(** The mapping a dictionary denotes; Python's [==] on dictionaries
    compares exactly this (insertion order is ignored). *)
Definition to_map {V} (d : t V) : gmap nat V := list_to_map d.

(** The set of keys. *)
Definition keyset {V} (d : t V) : gset nat := dom (to_map d).

(** [bool(d)] *)
Definition truthy {V} (d : t V) : bool :=
  match d with [] => false | _ => true end.

End PyDict.

(* --------------------------------------------------------------------- *)
(* Outcomes, events and the monad of traced, fallible computations       *)
(* --------------------------------------------------------------------- *)

(** What a Python call that ends does: it returns a value or raises.  [E]
    is the type of what can be raised, the objects of class
    [BaseException]. *)
Inductive outcome (E A : Type) : Type :=
  | Returned (a : A)
  | Raised (e : E).
Arguments Returned {E A} a.
Arguments Raised {E A} e.

(** How a computation ends: with the outcome of a call, or never.  The
    script itself has no loop that could run for ever; it hangs when
    [pool.map] waits for a result that will not arrive. *)
Inductive ending (E A : Type) : Type :=
  | Ended (o : outcome E A)
  | Hangs.
Arguments Ended {E A} o.
Arguments Hangs {E A}.
Coercion Ended : outcome >-> ending.

(** ['metadata'] entry of the output dictionary. *)
Record metadata : Type := Metadata {
  basis : string;
  total_molecules : nat;
  successful : nat;
  failed : nat;
}.

(** The dictionary handed to [pickle.dump]; [D] is the type of density
    matrices.  A value of the densities dictionary is whatever stood in
    the second component of a result record, hence [option D]. *)
Record output_data (D : Type) : Type := OutputData {
  densities : PyDict.t (option D);
  errors : PyDict.t string;
  meta : metadata;
}.
Arguments OutputData {D} _ _ _.
Arguments densities {D} _.
Arguments errors {D} _.
Arguments meta {D} _.

(** Observable effects of a run, in the order they happen: a call of
    [print], by the orchestrator or by a worker (when the line reaches the
    terminal depends on the buffering of the process and is not part of
    the trace), the creation of the worker pool, the return of [pool.map]
    with its list of results, and [pickle.dump(data, f)] on the file
    opened by [open(path, 'wb')]. *)
Inductive event (D : Type) : Type :=
  | EvPrint (line : string)
  | EvPoolCreated (n_processes : nat)
  | EvPoolMapReturned (n_results : nat)
  | EvDump (path : string) (data : output_data D).
Arguments EvPrint {D} line.
Arguments EvPoolCreated {D} n_processes.
Arguments EvPoolMapReturned {D} n_results.
Arguments EvDump {D} path data.

(** A computation: the events it performed and how it ends. *)
Definition IO (E D A : Type) : Type := list (event D) * ending E A.

Global Instance IO_ret {E D} : MRet (IO E D) :=
  λ A a, ([], Ended (Returned a)).

Global Instance IO_bind {E D} : MBind (IO E D) := λ A B k m,
  match m with
  | (t, Ended (Returned a)) => let '(t', r) := k a in (t ++ t', r)
  | (t, Ended (Raised e)) => (t, Ended (Raised e))
  | (t, Hangs) => (t, Hangs)
  end.

Definition emit {E D} (evs : list (event D)) : IO E D unit :=
  (evs, Ended (Returned ())).

Definition print {E D} (line : string) : IO E D unit := emit [EvPrint line].

Definition raise {E D A} (e : E) : IO E D A := ([], Ended (Raised e)).

(** A wait that never ends. *)
Definition hang {E D A} : IO E D A := ([], Hangs).

(** A call of an effect-free function that may raise. *)
Definition call {E D A} (o : outcome E A) : IO E D A := ([], Ended o).

(** [try: body  except C as e: handler e], where [is_instance e] tells
    whether [e] is an instance of the class [C].  An exception of another
    class is not caught: it leaves the statement. *)
Definition try_except {E D A} (body : IO E D A) (is_instance : E → bool)
    (handler : E → IO E D A) : IO E D A :=
  match body with
  | (t, Ended (Returned a)) => (t, Ended (Returned a))
  | (t, Ended (Raised e)) =>
      if is_instance e
      then let '(t', r) := handler e in (t ++ t', r)
      else (t, Ended (Raised e))
  | (t, Hangs) => (t, Hangs)
  end.

Definition trace {E D A} (m : IO E D A) : list (event D) := m.1.
Definition result {E D A} (m : IO E D A) : ending E A := m.2.

(** The [pickle.dump] calls of a trace: file name and dumped structure. *)
Definition dumps {D} (t : list (event D)) : list (string * output_data D) :=
  omap (λ ev, match ev with EvDump p d => Some (p, d) | _ => None end) t.

(** What [pool.map] makes of its tasks, given how each of them ends, in
    submission order.  The loop of a worker process runs a task under
    [except Exception]: an exception of that class is sent back to the
    parent, where [map] raises it.  A task that ends with another
    exception, or does not end, is lost: the worker process dies, its
    result never arrives and [map] waits for ever.  When every task
    returns, [map] returns the list of the results. *)
Fixpoint gather {E A} (is_instance : E → bool) (os : list (ending E A))
    : ending E (list A) :=
  match os with
  | [] => Ended (Returned [])
  | o :: os' =>
      match o, gather is_instance os' with
      | Hangs, _ => Hangs
      | Ended (Raised e), rest =>
          if is_instance e
          then match rest with Hangs => Hangs | _ => Ended (Raised e) end
          else Hangs
      | Ended (Returned a), Ended (Returned l) => Ended (Returned (a :: l))
      | Ended (Returned _), rest => rest
      end
  end.

(** [repr] of a list of non-negative integers: ["[2, 5]"]. *)
Definition repr_list (l : list nat) : string :=
  "[" +:+ String.concat ", " (pretty <$> l) +:+ "]".

(* --------------------------------------------------------------------- *)
(* The worker pool                                                       *)
(* --------------------------------------------------------------------- *)

(** What the environment decides about [multiprocessing.Pool]: the pool
    either works, and then [completion] lists the task positions in the
    order in which the workers finish them, or it fails when it is created,
    or it fails while [map] talks to the workers, after the tasks listed
    in [completion] have run. *)
Inductive pool_behaviour (E : Type) : Type :=
  | PoolRuns (completion : list nat)
  | PoolCreationFails (e : E)
  | PoolMapFails (completion : list nat) (e : E).
Arguments PoolRuns {E} completion.
Arguments PoolCreationFails {E} e.
Arguments PoolMapFails {E} completion e.

(** [with multiprocessing.Pool(n_processes) as pool: pool.map(f, iterable)],
    where [is_Exception e] is the test [isinstance(e, Exception)] of the
    worker loop.  The events of the workers are listed in completion
    order; the list that [map] returns is in submission order, and [map]
    returns only when every task has returned.  When a task is lost,
    [map] never returns and the script hangs in it. *)
Definition pool_map {E D A B} (pool : pool_behaviour E)
    (is_Exception : E → bool) (n_processes : nat)
    (f : A → IO E D B) (iterable : list A) : IO E D (list B) :=
  match pool with
  | PoolCreationFails e => raise e
  | PoolMapFails completion e =>
      let tasks := f <$> iterable in
      emit [EvPoolCreated n_processes] ;;
      emit (i ← completion; default [] (trace <$> tasks !! i)) ;;
      raise e
  | PoolRuns completion =>
      let tasks := f <$> iterable in
      emit [EvPoolCreated n_processes] ;;
      emit (i ← completion; default [] (trace <$> tasks !! i)) ;;
      results ← ([], gather is_Exception (result <$> tasks));
      emit [EvPoolMapReturned (length results)] ;;
      mret results
  end.

(* --------------------------------------------------------------------- *)
(* A concrete world, used to run the script on small inputs              *)
(* --------------------------------------------------------------------- *)

Module Demo.

(** A molecule is the list of its atomic numbers, a density matrix is
    stood for by the electron count, an exception by its message; every
    exception of this world is an instance of [Exception]. *)
Definition Atoms : Type := list nat.
Definition Density : Type := nat.
Definition PyException : Type := string.
Definition str (e : PyException) : string := e.
Definition is_Exception (e : PyException) : bool := true.

(** Fails on a molecule without atoms. *)
Definition scf_density_matrix (atoms : Atoms) (basis : string)
    : outcome PyException Density :=
  match atoms with
  | [] => Raised "molecule has no atoms"
  | _ => Returned (sum_list atoms)
  end.

(** Five molecules; the one at index 2 is malformed. *)
Definition qm5 : list Atoms :=
  [[6; 1; 1; 1; 1]; [8; 8]; []; [7; 7]; [1; 1]].

Definition load_dataset (name root : string) : outcome PyException (list Atoms) :=
  if decide (name = "QM7") then Returned qm5 else Raised "unknown dataset".

(** The same dataset with the malformed molecule repaired. *)
Definition load_repaired (name root : string)
    : outcome PyException (list Atoms) :=
  if decide (name = "QM7") then Returned (<[2:=[1; 1]]> qm5)
  else Raised "unknown dataset".

(** Three molecules; the middle one is malformed. *)
Definition abc : list Atoms := [[6; 1; 1; 1; 1]; []; [8; 8]].

Definition load_abc (name root : string) : outcome PyException (list Atoms) :=
  Returned abc.

(** The records of [abc] in submission order. *)
Definition abc_records : list (nat * option Density * option string) :=
  [(0, Some 10, None);
   (1, None,
    Some "Error computing density for molecule 1: molecule has no atoms");
   (2, Some 16, None)].

(** A dataset without molecules. *)
Definition load_empty (name root : string)
    : outcome PyException (list Atoms) :=
  Returned [].

(** A dataset of malformed molecules only. *)
Definition load_broken (name root : string)
    : outcome PyException (list Atoms) :=
  Returned [[]; []; []].

(** A loader that fails. *)
Definition load_missing (name root : string)
    : outcome PyException (list Atoms) :=
  Raised "dataset not found".

End Demo.

(** A world in which the routine ends the process for one molecule. *)
Module Exiting.

(** What is raised: an error of the routine, which is an instance of
    [Exception], or the [SystemExit] of a call of [sys.exit], which is
    not. *)
Inductive PyException : Type :=
  | ValueError (msg : string)
  | SystemExit.

Definition str (e : PyException) : string :=
  match e with ValueError msg => msg | SystemExit => "" end.

(** [isinstance(e, Exception)] *)
Definition is_Exception (e : PyException) : bool :=
  match e with ValueError _ => true | SystemExit => false end.

(** Fails on a molecule without atoms and exits on the molecule with the
    atomic number 0. *)
Definition scf_density_matrix (atoms : Demo.Atoms) (basis : string)
    : outcome PyException Demo.Density :=
  match atoms with
  | [] => Raised (ValueError "molecule has no atoms")
  | [0] => Raised SystemExit
  | _ => Returned (sum_list atoms)
  end.

(** Three molecules; the routine exits on the middle one. *)
Definition dataset : list Demo.Atoms := [[6; 1; 1; 1; 1]; [0]; [8; 8]].

Definition load_dataset (name root : string)
    : outcome PyException (list Demo.Atoms) :=
  Returned dataset.

End Exiting.

(* --------------------------------------------------------------------- *)
(* parallel_density_compute.py                                           *)
(* --------------------------------------------------------------------- *)

Section parallel_density_compute.

(** The collaborators the script imports.  [Atoms] is a molecule of the
    dataset, [Density] a density matrix (a numerical result, never
    [None]), [PyException] what can be raised, [str] the text of an
    exception (a total function: [str] of an exception is taken to
    return) and [is_Exception e] the test [isinstance(e, Exception)]: it
    fails for [KeyboardInterrupt], [SystemExit] and the like. *)
Variables Atoms Density PyException : Type.
Variable str : PyException → string.
Variable is_Exception : PyException → bool.
(** [data.scf_density_matrix(atoms, basis)] *)
Variable scf_density_matrix : Atoms → string → outcome PyException Density.
(** [load_atoms.load_dataset(name, root)] *)
Variable load_dataset : string → string → outcome PyException (list Atoms).

(** The triple [(index, density_matrix, error_message)]; [None] is
    Python's [None]. *)
Local Abbreviation result_record :=
  (nat * option Density * option string)%type.

Local Abbreviation Run := (IO PyException Density).

(** [f"Error computing density for molecule {idx}: {str(e)}"] *)
Definition error_message (idx : nat) (e : PyException) : string :=
  "Error computing density for molecule " +:+ pretty idx +:+ ": " +:+ str e.

Definition compute_density_safe (args : nat * Atoms) : Run result_record :=
  let '(idx, atoms) := args in
  try_except
    (density_matrix ← call (scf_density_matrix atoms "sto-3g");
     mret (idx, Some density_matrix, None))
    is_Exception
    (λ e,
      let error_msg := error_message idx e in
      print error_msg ;;
      mret (idx, None, Some error_msg)).

(** Nothing that the routine raises for this molecule leaves the wrapper:
    it is an instance of [Exception]. *)
Definition contained (atoms : Atoms) : Prop :=
  ∀ e, scf_density_matrix atoms "sto-3g" = Raised e → is_Exception e = true.

(** One turn of the loop [for idx, density_matrix, error_msg in results]. *)
Definition separate_step
    (acc : PyDict.t (option Density) * PyDict.t string) (r : result_record)
    : PyDict.t (option Density) * PyDict.t string :=
  let '(densities, errors) := acc in
  let '(idx, density_matrix, error_msg) := r in
  match error_msg with
  | None => (PyDict.setitem idx density_matrix densities, errors)
  | Some msg => (densities, PyDict.setitem idx msg errors)
  end.

(** The two dictionaries after the loop, both empty before it. *)
Definition separate_results (results : list result_record)
    : PyDict.t (option Density) * PyDict.t string :=
  foldl separate_step (PyDict.empty, PyDict.empty) results.

Definition main (pool : pool_behaviour PyException) : Run unit :=
  print "Loading QM7 dataset..." ;;
  ds ← call (load_dataset "QM7" "data");
  print ("Loaded " +:+ pretty (length ds) +:+ " molecules") ;;
  let args_list := imap (λ i atoms, (i, atoms)) ds in
  let n_processes := 32 in
  print ("Using " +:+ pretty n_processes +:+ " parallel processes") ;;
  print "Computing SCF density matrices in parallel..." ;;
  results ← pool_map pool is_Exception n_processes
              compute_density_safe args_list;
  let '(densities, errors) := separate_results results in
  print ("Successfully computed " +:+ pretty (PyDict.len densities)
           +:+ " density matrices") ;;
  print ("Failed to compute " +:+ pretty (PyDict.len errors)
           +:+ " density matrices") ;;
  let output_data :=
    {| densities := densities;
       errors := errors;
       meta := {| basis := "sto-3g";
                  total_molecules := length ds;
                  successful := PyDict.len densities;
                  failed := PyDict.len errors |} |} in
  let output_file := "densities.pkl" in
  print ("Saving results to " +:+ output_file +:+ "...") ;;
  emit [EvDump output_file output_data] ;;
  print ("Done! Results saved to " +:+ output_file) ;;
  print ("Summary: " +:+ pretty (PyDict.len densities) +:+ "/"
           +:+ pretty (length ds) +:+ " successful computations") ;;
  if PyDict.truthy errors
  then print ("Errors encountered for indices: "
                +:+ repr_list (PyDict.keys errors))
  else mret ().

End parallel_density_compute.

Arguments error_message {PyException} str idx e.
Arguments compute_density_safe {Atoms Density PyException}
  str is_Exception scf_density_matrix args.
Arguments contained {Atoms Density PyException}
  is_Exception scf_density_matrix atoms.
Arguments separate_step {Density} acc r.
Arguments separate_results {Density} results.
Arguments main {Atoms Density PyException}
  str is_Exception scf_density_matrix load_dataset pool.

(** The script in the concrete world, for each of its datasets. *)
Module DemoRun.

Definition wrapper : nat * Demo.Atoms → IO Demo.PyException Demo.Density _ :=
  compute_density_safe Demo.str Demo.is_Exception Demo.scf_density_matrix.

Definition main_repaired : pool_behaviour Demo.PyException
    → IO Demo.PyException Demo.Density unit :=
  main Demo.str Demo.is_Exception Demo.scf_density_matrix Demo.load_repaired.

Definition main_abc : pool_behaviour Demo.PyException
    → IO Demo.PyException Demo.Density unit :=
  main Demo.str Demo.is_Exception Demo.scf_density_matrix Demo.load_abc.

Definition main_empty : pool_behaviour Demo.PyException
    → IO Demo.PyException Demo.Density unit :=
  main Demo.str Demo.is_Exception Demo.scf_density_matrix Demo.load_empty.

Definition main_qm5 : pool_behaviour Demo.PyException
    → IO Demo.PyException Demo.Density unit :=
  main Demo.str Demo.is_Exception Demo.scf_density_matrix Demo.load_dataset.

Definition main_broken : pool_behaviour Demo.PyException
    → IO Demo.PyException Demo.Density unit :=
  main Demo.str Demo.is_Exception Demo.scf_density_matrix Demo.load_broken.

Definition main_missing : pool_behaviour Demo.PyException
    → IO Demo.PyException Demo.Density unit :=
  main Demo.str Demo.is_Exception Demo.scf_density_matrix Demo.load_missing.

Definition wrapper_exiting
    : nat * Demo.Atoms → IO Exiting.PyException Demo.Density _ :=
  compute_density_safe Exiting.str Exiting.is_Exception
    Exiting.scf_density_matrix.

Definition main_exiting : pool_behaviour Exiting.PyException
    → IO Exiting.PyException Demo.Density unit :=
  main Exiting.str Exiting.is_Exception
    Exiting.scf_density_matrix Exiting.load_dataset.

End DemoRun.

(** Every exception of the demonstration routine is an instance of
    [Exception], so nothing leaves the wrapper there. *)
Ltac demo_contained :=
  apply Forall_forall; intros ? _ ? _; reflexivity.

(* ===================================================================== *)
(* Facts about dictionaries                                              *)
(* ===================================================================== *)

Module PyDictFacts.
Import PyDict.

Lemma to_map_empty {V} : to_map (@empty V) = ∅.
Proof. reflexivity. Qed.

(** [d[k] = v] is insertion on the denoted mapping. *)
Lemma to_map_setitem {V} (k : nat) (v : V) (d : t V) :
  to_map (setitem k v d) = <[k:=v]> (to_map d).
Proof.
  unfold to_map. induction d as [|[k' v'] d IH]; simpl; [done|].
  case_decide as Hk; simpl.
  - subst k'. by rewrite insert_insert_eq.
  - rewrite IH. by apply insert_insert_ne.
Qed.

Lemma keys_setitem_in {V} (k : nat) (v : V) (d : t V) :
  k ∈ keys d → keys (setitem k v d) = keys d.
Proof.
  unfold keys. induction d as [|[k' v'] d IH]; simpl; intros Hin.
  - by apply elem_of_nil in Hin.
  - case_decide as Hk; simpl; [by subst|].
    f_equal. apply IH. apply elem_of_cons in Hin as [?|?]; [congruence|done].
Qed.

Lemma keys_setitem_notin {V} (k : nat) (v : V) (d : t V) :
  k ∉ keys d → keys (setitem k v d) = keys d ++ [k].
Proof.
  unfold keys. induction d as [|[k' v'] d IH]; simpl; intros Hin; [done|].
  apply not_elem_of_cons in Hin as [Hne Hin].
  case_decide; [done|]. simpl. f_equal. by apply IH.
Qed.

(** Every key occurs once, whatever is stored. *)
Lemma keys_setitem_NoDup {V} (k : nat) (v : V) (d : t V) :
  NoDup (keys d) → NoDup (keys (setitem k v d)).
Proof.
  intros Hd. destruct (decide (k ∈ keys d)) as [Hin|Hin].
  - by rewrite keys_setitem_in.
  - rewrite keys_setitem_notin by done.
    apply NoDup_app. split_and!; [done| |apply NoDup_singleton].
    intros x Hx ->%list_elem_of_singleton. done.
Qed.

Lemma len_to_map {V} (d : t V) : NoDup (keys d) → len d = size (to_map d).
Proof. intros Hd. symmetry. by apply map_size_list_to_map. Qed.

Lemma keyset_keys {V} (d : t V) (k : nat) : k ∈ keyset d ↔ k ∈ keys d.
Proof.
  unfold keyset, to_map, keys. rewrite dom_list_to_map_L.
  by rewrite elem_of_list_to_set.
Qed.

Lemma len_keyset {V} (d : t V) : NoDup (keys d) → len d = size (keyset d).
Proof. intros Hd. unfold keyset. rewrite size_dom. by apply len_to_map. Qed.

Lemma truthy_false {V} (d : t V) : truthy d = false ↔ to_map d = ∅.
Proof.
  destruct d as [|[k v] d]; simpl; [done|].
  split; [done|]. unfold to_map. simpl. intros Hm.
  by apply insert_non_empty in Hm.
Qed.

End PyDictFacts.

(* ===================================================================== *)
(* Facts about the separation loop                                       *)
(* ===================================================================== *)

Section separate_facts.
Context {Density : Type}.
Implicit Types (results : list (nat * option Density * option string)).
Implicit Types (k : nat).

Lemma separate_results_snoc results r :
  separate_results (results ++ [r])
  = separate_step (separate_results results) r.
Proof. unfold separate_results. by rewrite foldl_app. Qed.

(** Both dictionaries keep their keys distinct. *)
Lemma separate_results_NoDup results :
  NoDup (PyDict.keys (separate_results results).1)
  ∧ NoDup (PyDict.keys (separate_results results).2).
Proof.
  induction results as [|r results [IHd IHe]] using rev_ind.
  - split; apply NoDup_nil_2.
  - rewrite separate_results_snoc.
    destruct (separate_results results) as [ds es]; simpl in *.
    destruct r as [[idx dm] [msg|]]; simpl; split;
      auto using PyDictFacts.keys_setitem_NoDup.
Qed.

(** With distinct indices, the densities dictionary maps [k] to [v]
    exactly when the record [(k, v, None)] is among the results. *)
Lemma separate_results_densities results k v :
  NoDup (results.*1.*1) →
  PyDict.to_map (separate_results results).1 !! k = Some v
  ↔ (k, v, None) ∈ results.
Proof.
  induction results as [|r results IH] using rev_ind; intros Hnd.
  - simpl. rewrite lookup_empty. split; [done|]. by intros ?%elem_of_nil.
  - rewrite !fmap_app in Hnd. apply NoDup_app in Hnd as (Hnd & Hfresh & _).
    specialize (IH Hnd). rewrite separate_results_snoc, elem_of_app.
    rewrite list_elem_of_singleton.
    destruct (separate_results results) as [ds es]; simpl in *.
    destruct r as [[idx dm] [msg|]]; simpl in *.
    + rewrite IH. naive_solver.
    + rewrite PyDictFacts.to_map_setitem.
      destruct (decide (idx = k)) as [->|Hne].
      * rewrite lookup_insert_eq. split; [naive_solver|].
        intros [Hin| ?]; [|naive_solver]. exfalso.
        apply (Hfresh k); [|set_solver].
        apply list_elem_of_fmap. exists (k, v). split; [done|].
        apply list_elem_of_fmap. by exists (k, v, None).
      * rewrite lookup_insert_ne by done. rewrite IH. naive_solver.
Qed.

(** With distinct indices, the errors dictionary maps [k] to [msg]
    exactly when a record [(k, _, msg)] is among the results. *)
Lemma separate_results_errors results k msg :
  NoDup (results.*1.*1) →
  PyDict.to_map (separate_results results).2 !! k = Some msg
  ↔ ∃ dm, (k, dm, Some msg) ∈ results.
Proof.
  induction results as [|r results IH] using rev_ind; intros Hnd.
  - simpl. rewrite lookup_empty. split; [done|].
    by intros [? ?%elem_of_nil].
  - rewrite !fmap_app in Hnd. apply NoDup_app in Hnd as (Hnd & Hfresh & _).
    specialize (IH Hnd). rewrite separate_results_snoc.
    setoid_rewrite elem_of_app. setoid_rewrite list_elem_of_singleton.
    destruct (separate_results results) as [ds es]; simpl in *.
    destruct r as [[idx dm] [msg'|]]; simpl in *.
    + rewrite PyDictFacts.to_map_setitem.
      destruct (decide (idx = k)) as [->|Hne].
      * rewrite lookup_insert_eq. split; [naive_solver|].
        intros [dm' [Hin| ?]]; [|naive_solver]. exfalso.
        apply (Hfresh k); [|set_solver].
        apply list_elem_of_fmap. exists (k, dm'). split; [done|].
        apply list_elem_of_fmap. by exists (k, dm', Some msg).
      * rewrite lookup_insert_ne by done. rewrite IH. naive_solver.
    + rewrite IH. naive_solver.
Qed.

(** The two dictionaries depend on the set of records only. *)
Lemma separate_results_Permutation results results' :
  NoDup (results.*1.*1) → results' ≡ₚ results →
  PyDict.to_map (separate_results results').1
    = PyDict.to_map (separate_results results).1
  ∧ PyDict.to_map (separate_results results').2
    = PyDict.to_map (separate_results results).2.
Proof.
  intros Hnd Hperm.
  assert (NoDup (results'.*1.*1)) as Hnd' by by rewrite Hperm.
  split; apply map_eq; intros k; apply option_eq; intros x.
  - rewrite !separate_results_densities by done. by rewrite Hperm.
  - rewrite !separate_results_errors by done. by setoid_rewrite Hperm.
Qed.

End separate_facts.

(* ===================================================================== *)
(* Facts about traces and the pool                                       *)
(* ===================================================================== *)

Lemma dumps_app {D} (t1 t2 : list (event D)) :
  dumps (t1 ++ t2) = dumps t1 ++ dumps t2.
Proof. unfold dumps. apply omap_app. Qed.

Lemma dumps_cons_dump {D} (p : string) (d : output_data D) (t : list (event D)) :
  dumps (EvDump p d :: t) = (p, d) :: dumps t.
Proof. reflexivity. Qed.

Lemma gather_Returned {E A} (is_instance : E → bool)
    (os : list (ending E A)) (l : list A) :
  gather is_instance os = Returned l
  ↔ os = (λ a, Ended (Returned a)) <$> l.
Proof.
  revert l. induction os as [|[[a|e]|] os IH]; intros l; cbn [gather].
  - split; [by intros [= <-]|]. by destruct l.
  - destruct (gather is_instance os) as [[l'|e]|] eqn:Hg.
    + split.
      * intros [= <-]. simpl. f_equal. by apply IH.
      * destruct l as [|a' l]; intros [= -> Hos]. do 3 f_equal.
        apply IH in Hos. congruence.
    + split; [done|]. destruct l as [|a' l]; intros [= -> Hos].
      apply IH in Hos. congruence.
    + split; [done|]. destruct l as [|a' l]; intros [= -> Hos].
      apply IH in Hos. congruence.
  - split; [|by destruct l].
    destruct (is_instance e); [|done]. by destruct (gather is_instance os).
  - split; [done|]. by destruct l.
Qed.

(** When no task raises an instance of the class, nothing is raised by
    [map]: it returns, or it waits for ever. *)
Lemma gather_lost {E A} (is_instance : E → bool) (os : list (ending E A)) :
  Forall (λ o : ending E A, ∀ e, o = Raised e → is_instance e = false) os →
  (∃ l, gather is_instance os = Returned l)
  ∨ gather is_instance os = Hangs.
Proof.
  induction 1 as [|[[a|e]|] os Ho _ [[l IH]|IH]]; cbn [gather];
    rewrite ?IH; try (by right); try (by left; eexists).
  - right. by rewrite (Ho e eq_refl).
  - right. by rewrite (Ho e eq_refl).
Qed.

Section run_facts.
Context {Atoms Density PyException : Type}.
Variable str : PyException → string.
Variable is_Exception : PyException → bool.
Variable scf_density_matrix : Atoms → string → outcome PyException Density.

Local Abbreviation wrapper := (compute_density_safe str is_Exception scf_density_matrix).
Local Abbreviation work_list := (imap (λ (i : nat) (atoms : Atoms), (i, atoms))).

(** The wrapper, case by case on what the numerical routine does. *)
Lemma compute_density_safe_unfold idx atoms :
  wrapper (idx, atoms)
  = match scf_density_matrix atoms "sto-3g" with
    | Returned density_matrix =>
        ([], Ended (Returned (idx, Some density_matrix, None)))
    | Raised e =>
        if is_Exception e
        then ([EvPrint (error_message str idx e)],
              Ended (Returned (idx, None, Some (error_message str idx e))))
        else ([], Ended (Raised e))
    end.
Proof.
  unfold compute_density_safe.
  destruct (scf_density_matrix atoms "sto-3g") as [d|e]; [done|].
  unfold try_except. simpl. by destruct (is_Exception e).
Qed.

(** When nothing leaves it, the wrapper returns, and the record carries
    the index. *)
Lemma compute_density_safe_returns idx atoms :
  contained is_Exception scf_density_matrix atoms →
  ∃ dm msg, result (wrapper (idx, atoms)) = Returned (idx, dm, msg).
Proof.
  intros Hc. rewrite compute_density_safe_unfold.
  destruct (scf_density_matrix atoms "sto-3g") as [d|e] eqn:Hscf;
    [simpl; by eauto|].
  rewrite (Hc e) by done. simpl. eauto.
Qed.

(** What the wrapper returns when nothing leaves it. *)
Lemma compute_density_safe_result idx atoms :
  contained is_Exception scf_density_matrix atoms →
  result (wrapper (idx, atoms))
  = Returned
      match scf_density_matrix atoms "sto-3g" with
      | Returned density_matrix => (idx, Some density_matrix, None)
      | Raised e => (idx, None, Some (error_message str idx e))
      end.
Proof.
  intros Hc. rewrite compute_density_safe_unfold.
  destruct (scf_density_matrix atoms "sto-3g") as [d|e] eqn:Hscf; [done|].
  by rewrite (Hc e).
Qed.

(** A record that the wrapper returns carries the index. *)
Lemma compute_density_safe_index idx atoms r :
  result (wrapper (idx, atoms)) = Returned r → r.1.1 = idx.
Proof.
  rewrite compute_density_safe_unfold.
  destruct (scf_density_matrix atoms "sto-3g") as [d|e];
    [|destruct (is_Exception e)]; simpl; by intros [= <-].
Qed.

(** What leaves the wrapper is raised by the routine and is not an
    instance of [Exception]. *)
Lemma compute_density_safe_raised idx atoms e :
  result (wrapper (idx, atoms)) = Raised e →
  scf_density_matrix atoms "sto-3g" = Raised e ∧ is_Exception e = false.
Proof.
  rewrite compute_density_safe_unfold.
  destruct (scf_density_matrix atoms "sto-3g") as [d|e']; [done|].
  destruct (is_Exception e') eqn:He'; [done|]. simpl. by intros [= <-].
Qed.

(** When the wrapper returns, nothing has left it. *)
Lemma compute_density_safe_contained idx atoms r :
  result (wrapper (idx, atoms)) = Returned r →
  contained is_Exception scf_density_matrix atoms.
Proof.
  rewrite compute_density_safe_unfold. intros Hr e He. rewrite He in Hr.
  by destruct (is_Exception e).
Qed.

(** A worker writes nothing but console lines. *)
Lemma compute_density_safe_dumps args : dumps (trace (wrapper args)) = [].
Proof.
  destruct args as [idx atoms]. rewrite compute_density_safe_unfold.
  destruct (scf_density_matrix atoms "sto-3g") as [d|e]; [done|].
  by destruct (is_Exception e).
Qed.

(** Whatever the completion order, the workers dump nothing. *)
Lemma workers_dumps (args : list (nat * Atoms)) (c : list nat) :
  dumps (i ← c; default [] (trace <$> (wrapper <$> args) !! i)) = [].
Proof.
  induction c as [|i c IH]; [done|].
  cbn [mbind list_bind]. rewrite dumps_app, IH, app_nil_r.
  rewrite list_lookup_fmap. destruct (args !! i) as [a|]; [|done].
  apply compute_density_safe_dumps.
Qed.

(** What [pool.map] returns does not depend on the completion order. *)
Lemma pool_map_result {A B} (c : list nat) (n : nat)
    (f : A → IO PyException Density B) (args : list A) :
  result (pool_map (PoolRuns c) is_Exception n f args)
  = gather is_Exception (result <$> (f <$> args)).
Proof.
  unfold pool_map. simpl.
  by destruct (gather is_Exception (result <$> (f <$> args))) as [[?|?]|].
Qed.

(** When nothing leaves the wrapper for any item of the dataset, every
    task of the work list returns, so [pool.map] returns. *)
Lemma collected_exists (ds : list Atoms) :
  Forall (contained is_Exception scf_density_matrix) ds →
  ∃ results, gather is_Exception (result <$> (wrapper <$> work_list ds)) = Returned results.
Proof.
  intros Hc.
  assert (Forall (λ ia : nat * Atoms,
                    contained is_Exception scf_density_matrix ia.2)
            (work_list ds)) as Hargs.
  { apply Forall_forall. intros ia (i & a & -> & Hi)%elem_of_lookup_imap.
    rewrite Forall_forall in Hc. apply Hc. by eapply list_elem_of_lookup_2. }
  clear Hc. induction Hargs as [|[idx atoms] args Ha _ [results IH]];
    [by eexists|].
  rewrite !fmap_cons.
  destruct (compute_density_safe_returns idx atoms Ha) as (dm & msg & ->).
  cbn [gather]. rewrite IH. by eexists.
Qed.

(** Record [i] of the collected results is what the wrapper returned for
    item [i] of the dataset. *)
Lemma collected_lookup (ds : list Atoms) results i :
  gather is_Exception (result <$> (wrapper <$> work_list ds)) = Returned results →
  (λ r, Ended (Returned (E:=PyException) r)) <$> results !! i
  = (λ atoms, result (wrapper (i, atoms))) <$> ds !! i.
Proof.
  intros Hg%gather_Returned.
  rewrite <-list_lookup_fmap, <-Hg, !list_lookup_fmap, list_lookup_imap.
  by destruct (ds !! i).
Qed.

Lemma collected_length (ds : list Atoms) results :
  gather is_Exception (result <$> (wrapper <$> work_list ds)) = Returned results →
  length results = length ds.
Proof.
  intros Hg%gather_Returned.
  apply (f_equal length) in Hg. rewrite !length_fmap, length_imap in Hg.
  done.
Qed.

(** The collected records carry the indices [0, 1, ..., N-1] in order. *)
Lemma collected_indices (ds : list Atoms) results :
  gather is_Exception (result <$> (wrapper <$> work_list ds)) = Returned results →
  results.*1.*1 = seq 0 (length ds).
Proof.
  intros Hg. apply list_eq. intros i.
  pose proof (collected_lookup ds results i Hg) as Hi.
  rewrite !list_lookup_fmap.
  destruct (ds !! i) as [atoms|] eqn:Hds; cbn [fmap option_fmap option_map] in Hi.
  - apply fmap_Some in Hi as (r & Hri & Hr).
    apply compute_density_safe_index in Hr.
    rewrite Hri. simpl. rewrite Hr.
    rewrite lookup_seq_lt; [done|]. by eapply lookup_lt_Some.
  - apply fmap_None in Hi. rewrite Hi. simpl.
    symmetry. apply lookup_seq_ge. by apply lookup_ge_None.
Qed.

Lemma collected_NoDup (ds : list Atoms) results :
  gather is_Exception (result <$> (wrapper <$> work_list ds)) = Returned results →
  NoDup (results.*1.*1).
Proof. intros ->%collected_indices. apply NoDup_seq. Qed.

(** A record with index [k] is among the collected results exactly when
    the wrapper returned it for item [k]. *)
Lemma collected_elem_of (ds : list Atoms) results k dm msg :
  gather is_Exception (result <$> (wrapper <$> work_list ds)) = Returned results →
  (k, dm, msg) ∈ results
  ↔ ∃ atoms, ds !! k = Some atoms
      ∧ result (wrapper (k, atoms)) = Returned (k, dm, msg).
Proof.
  intros Hg. split.
  - intros [i Hi]%list_elem_of_lookup.
    pose proof (collected_lookup ds results i Hg) as Hl. rewrite Hi in Hl.
    destruct (ds !! i) as [atoms|] eqn:Hds; [|done].
    cbn [fmap option_fmap option_map] in Hl. injection Hl as Hl.
    symmetry in Hl. pose proof (compute_density_safe_index _ _ _ Hl) as Hk.
    simpl in Hk. subst i. by exists atoms.
  - intros (atoms & Hds & Hr).
    pose proof (collected_lookup ds results k Hg) as Hl.
    rewrite Hds in Hl. cbn [fmap option_fmap option_map] in Hl. rewrite Hr in Hl.
    apply fmap_Some in Hl as (r & Hk & [= <-]).
    by eapply list_elem_of_lookup_2.
Qed.

(** When [pool.map] has returned, nothing has left the wrapper for any
    item of the dataset. *)
Lemma collected_contained (ds : list Atoms) results :
  gather is_Exception (result <$> (wrapper <$> work_list ds)) = Returned results →
  Forall (contained is_Exception scf_density_matrix) ds.
Proof.
  intros Hg. apply Forall_forall. intros atoms [i Hi]%list_elem_of_lookup.
  pose proof (collected_lookup ds results i Hg) as Hl. rewrite Hi in Hl.
  apply fmap_Some in Hl as (r & _ & Hr).
  by eapply compute_density_safe_contained.
Qed.

(** Nothing has left the wrapper for an item of a collected run. *)
Lemma collected_item_contained (ds : list Atoms) results k atoms :
  gather is_Exception (result <$> (wrapper <$> work_list ds)) = Returned results →
  ds !! k = Some atoms →
  contained is_Exception scf_density_matrix atoms.
Proof.
  intros Hg%collected_contained Hk. rewrite Forall_forall in Hg.
  apply Hg. by eapply list_elem_of_lookup_2.
Qed.

(** The tasks of the work list never make [pool.map] raise: it returns,
    or a task is lost and it waits for ever. *)
Lemma collected_or_lost (ds : list Atoms) :
  (∃ results,
     gather is_Exception (result <$> (wrapper <$> work_list ds))
     = Returned results)
  ∨ gather is_Exception (result <$> (wrapper <$> work_list ds)) = Hangs.
Proof.
  apply gather_lost, Forall_fmap, Forall_fmap, Forall_forall.
  intros [idx atoms] _ e He. by apply compute_density_safe_raised in He as [_ ?].
Qed.

(** When something leaves the wrapper for an item, its task is lost. *)
Lemma collected_lost (ds : list Atoms) i atoms e :
  ds !! i = Some atoms →
  scf_density_matrix atoms "sto-3g" = Raised e →
  is_Exception e = false →
  gather is_Exception (result <$> (wrapper <$> work_list ds)) = Hangs.
Proof.
  intros Hi Hraise He.
  destruct (collected_or_lost ds) as [[results Hg]|Hg]; [|done].
  pose proof (collected_item_contained ds results i atoms Hg Hi e Hraise).
  congruence.
Qed.

End run_facts.

Section main_facts.
Context {Atoms Density PyException : Type}.
Variable str : PyException → string.
Variable is_Exception : PyException → bool.
Variable scf_density_matrix : Atoms → string → outcome PyException Density.
Variable load_dataset : string → string → outcome PyException (list Atoms).

Local Abbreviation wrapper := (compute_density_safe str is_Exception scf_density_matrix).
Local Abbreviation work_list := (imap (λ (i : nat) (atoms : Atoms), (i, atoms))).
Local Abbreviation run := (main str is_Exception scf_density_matrix load_dataset).

Lemma main_runs ds c results :
  load_dataset "QM7" "data" = Returned ds →
  gather is_Exception (result <$> (wrapper <$> work_list ds)) = Returned results →
  ∃ pre post,
    run (PoolRuns c)
    = (pre ++ EvDump "densities.pkl"
                {| densities := (separate_results results).1;
                   errors := (separate_results results).2;
                   meta := {| basis := "sto-3g";
                              total_molecules := length ds;
                              successful := PyDict.len (separate_results results).1;
                              failed := PyDict.len (separate_results results).2 |} |}
              :: post,
       Ended (Returned ()))
    ∧ dumps pre = [] ∧ dumps post = []
    ∧ EvPoolMapReturned (length ds) ∈ pre.
Proof.
  intros Hload Hg. unfold main.
  unfold mbind, IO_bind. unfold print, emit, call, mret, IO_ret.
  rewrite Hload. unfold pool_map.
  unfold mbind, IO_bind. unfold print, emit, call, mret, IO_ret.
  rewrite Hg.
  destruct (separate_results results) as [densities errors].
  rewrite (collected_length _ _ _ ds results Hg).
  exists ([EvPrint "Loading QM7 dataset...";
           EvPrint ("Loaded " +:+ pretty (length ds) +:+ " molecules");
           EvPrint ("Using " +:+ pretty 32 +:+ " parallel processes");
           EvPrint "Computing SCF density matrices in parallel...";
           EvPoolCreated 32]
          ++ (i ← c; default [] (trace <$> (wrapper <$> work_list ds) !! i))
          ++ [EvPoolMapReturned (length ds);
              EvPrint ("Successfully computed "
                         +:+ pretty (PyDict.len densities)
                         +:+ " density matrices");
              EvPrint ("Failed to compute " +:+ pretty (PyDict.len errors)
                         +:+ " density matrices");
              EvPrint ("Saving results to " +:+ "densities.pkl" +:+ "...")]).
  destruct (PyDict.truthy errors); eexists; (split_and!;
    [ cbn [app fst snd]; rewrite <-!app_assoc; cbn [app]; reflexivity
    | by rewrite !dumps_app, workers_dumps
    | done
    | set_solver ]).
Qed.

End main_facts.

(* ===================================================================== *)
(* The dictionaries of a run, entry by entry                             *)
(* ===================================================================== *)

Section outcome_facts.
Context {Atoms Density PyException : Type}.
Variable str : PyException → string.
Variable is_Exception : PyException → bool.
Variable scf_density_matrix : Atoms → string → outcome PyException Density.

Local Abbreviation wrapper := (compute_density_safe str is_Exception scf_density_matrix).
Local Abbreviation work_list := (imap (λ (i : nat) (atoms : Atoms), (i, atoms))).

(** The densities dictionary has an entry for [k] exactly when item [k]
    exists and the numerical routine returned for it. *)
Lemma run_densities_lookup (ds : list Atoms) results k :
  gather is_Exception (result <$> (wrapper <$> work_list ds)) = Returned results →
  PyDict.to_map (separate_results results).1 !! k
  = atoms ← ds !! k;
    match scf_density_matrix atoms "sto-3g" with
    | Returned density_matrix => Some (Some density_matrix)
    | Raised _ => None
    end.
Proof.
  intros Hg. apply option_eq. intros v.
  rewrite separate_results_densities by by eapply collected_NoDup.
  rewrite (collected_elem_of str is_Exception scf_density_matrix ds) by done.
  rewrite bind_Some.
  split; intros (atoms & Hds & Hr); exists atoms; (split; [done|]);
    pose proof (collected_item_contained _ _ _ ds results k atoms Hg Hds)
      as Hc;
    rewrite (compute_density_safe_result _ _ _ k atoms Hc) in *;
    destruct (scf_density_matrix atoms "sto-3g"); naive_solver.
Qed.

(** The errors dictionary has an entry for [k] exactly when item [k]
    exists and the numerical routine raised for it; the entry is the
    message built from [k] and the exception. *)
Lemma run_errors_lookup (ds : list Atoms) results k :
  gather is_Exception (result <$> (wrapper <$> work_list ds)) = Returned results →
  PyDict.to_map (separate_results results).2 !! k
  = atoms ← ds !! k;
    match scf_density_matrix atoms "sto-3g" with
    | Returned _ => None
    | Raised e => Some (error_message str k e)
    end.
Proof.
  intros Hg. apply option_eq. intros msg.
  rewrite separate_results_errors by by eapply collected_NoDup.
  setoid_rewrite (collected_elem_of str is_Exception scf_density_matrix ds); [|done].
  rewrite bind_Some. split.
  - intros (dm & atoms & Hds & Hr). exists atoms. split; [done|].
    pose proof (collected_item_contained _ _ _ ds results k atoms Hg Hds)
      as Hc.
    rewrite (compute_density_safe_result _ _ _ k atoms Hc) in Hr.
    destruct (scf_density_matrix atoms "sto-3g"); congruence.
  - intros (atoms & Hds & Hr). exists None, atoms. split; [done|].
    pose proof (collected_item_contained _ _ _ ds results k atoms Hg Hds)
      as Hc.
    rewrite (compute_density_safe_result _ _ _ k atoms Hc).
    destruct (scf_density_matrix atoms "sto-3g"); congruence.
Qed.

(** Every index below the dataset size is a key of exactly one of the two
    dictionaries, and no other number is a key. *)
Lemma run_keysets (ds : list Atoms) results :
  gather is_Exception (result <$> (wrapper <$> work_list ds)) = Returned results →
  PyDict.keyset (separate_results results).1
    ## PyDict.keyset (separate_results results).2
  ∧ PyDict.keyset (separate_results results).1
      ∪ PyDict.keyset (separate_results results).2
    = set_seq 0 (length ds).
Proof.
  intros Hg. unfold PyDict.keyset. split.
  - intros k [v Hd]%elem_of_dom [msg He]%elem_of_dom.
    rewrite (run_densities_lookup ds) in Hd by done.
    rewrite (run_errors_lookup ds) in He by done.
    destruct (ds !! k) as [atoms|]; simpl in *; [|done].
    by destruct (scf_density_matrix atoms "sto-3g").
  - apply set_eq. intros k.
    rewrite elem_of_union, !elem_of_dom, elem_of_set_seq.
    rewrite (run_densities_lookup ds), (run_errors_lookup ds) by done.
    destruct (ds !! k) as [atoms|] eqn:Hds; simpl.
    + apply lookup_lt_Some in Hds.
      destruct (scf_density_matrix atoms "sto-3g"); split;
        (lia || eauto).
    + apply lookup_ge_None in Hds. split; [|lia].
      intros [[? ?]|[? ?]]; done.
Qed.

(** The sizes of the two dictionaries add up to the dataset size. *)
Lemma run_lens (ds : list Atoms) results :
  gather is_Exception (result <$> (wrapper <$> work_list ds)) = Returned results →
  PyDict.len (separate_results results).1
    + PyDict.len (separate_results results).2
  = length ds.
Proof.
  intros Hg. destruct (run_keysets ds results Hg) as [Hdisj Hunion].
  destruct (separate_results_NoDup results) as [Hd He].
  rewrite !PyDictFacts.len_keyset by done.
  rewrite <-size_union by done. rewrite Hunion.
  apply size_set_seq.
Qed.

End outcome_facts.

(* ===================================================================== *)
(* Runs of the script                                                    *)
(* ===================================================================== *)

Section run_shapes.
Context {Atoms Density PyException : Type}.
Variable str : PyException → string.
Variable is_Exception : PyException → bool.
Variable scf_density_matrix : Atoms → string → outcome PyException Density.
Variable load_dataset : string → string → outcome PyException (list Atoms).

Local Abbreviation wrapper := (compute_density_safe str is_Exception scf_density_matrix).
Local Abbreviation work_list := (imap (λ (i : nat) (atoms : Atoms), (i, atoms))).
Local Abbreviation run := (main str is_Exception scf_density_matrix load_dataset).

(** A run whose dataset loads, whose pool works and whose tasks all
    return: the script returns, and it dumps once, the structure built
    from the separated records. *)
Lemma run_collected ds c results :
  load_dataset "QM7" "data" = Returned ds →
  gather is_Exception (result <$> (wrapper <$> work_list ds)) = Returned results →
  result (run (PoolRuns c)) = Returned ()
  ∧ dumps (trace (run (PoolRuns c)))
    = [("densities.pkl",
        {| densities := (separate_results results).1;
           errors := (separate_results results).2;
           meta := {| basis := "sto-3g";
                      total_molecules := length ds;
                      successful := PyDict.len (separate_results results).1;
                      failed := PyDict.len (separate_results results).2 |} |})].
Proof.
  intros Hload Hg.
  destruct (main_runs str is_Exception scf_density_matrix load_dataset
              ds c results Hload Hg) as (pre & post & -> & Hpre & Hpost & _).
  split; [done|]. unfold trace. cbn [fst].
  by rewrite dumps_app, dumps_cons_dump, Hpre, Hpost.
Qed.

(** A run whose dataset loads and whose pool works, when nothing leaves
    the wrapper: [pool.map] returns the records of all items, the script
    returns, and it dumps once, the structure built from the separated
    records. *)
Lemma run_artifact ds c :
  load_dataset "QM7" "data" = Returned ds →
  Forall (contained is_Exception scf_density_matrix) ds →
  ∃ results,
    gather is_Exception (result <$> (wrapper <$> work_list ds)) = Returned results
    ∧ result (pool_map (PoolRuns c) is_Exception 32 wrapper (work_list ds))
      = Returned results
    ∧ result (run (PoolRuns c)) = Returned ()
    ∧ dumps (trace (run (PoolRuns c)))
      = [("densities.pkl",
          {| densities := (separate_results results).1;
             errors := (separate_results results).2;
             meta := {| basis := "sto-3g";
                        total_molecules := length ds;
                        successful := PyDict.len (separate_results results).1;
                        failed := PyDict.len (separate_results results).2 |} |})].
Proof.
  intros Hload Hc.
  destruct (collected_exists str is_Exception scf_density_matrix ds Hc)
    as [results Hg].
  exists results. split; [done|]. split; [by rewrite pool_map_result|].
  by apply run_collected.
Qed.

(** A run in which a task is lost: the script hangs in [pool.map] after
    the events of the workers, and nothing is dumped. *)
Lemma main_task_lost ds c :
  load_dataset "QM7" "data" = Returned ds →
  gather is_Exception (result <$> (wrapper <$> work_list ds)) = Hangs →
  run (PoolRuns c)
  = ([EvPrint "Loading QM7 dataset...";
      EvPrint ("Loaded " +:+ pretty (length ds) +:+ " molecules");
      EvPrint ("Using " +:+ pretty 32 +:+ " parallel processes");
      EvPrint "Computing SCF density matrices in parallel...";
      EvPoolCreated 32]
     ++ (i ← c; default [] (trace <$> (wrapper <$> work_list ds) !! i)),
     Hangs).
Proof.
  intros Hload Hg. unfold main.
  unfold mbind, IO_bind. unfold print, emit, call, mret, IO_ret.
  rewrite Hload. unfold pool_map.
  unfold mbind, IO_bind. unfold print, emit, call, mret, IO_ret.
  rewrite Hg. cbn [app]. by rewrite !app_nil_r.
Qed.

Lemma main_task_lost_dumps ds c :
  load_dataset "QM7" "data" = Returned ds →
  gather is_Exception (result <$> (wrapper <$> work_list ds)) = Hangs →
  dumps (trace (run (PoolRuns c))) = []
  ∧ result (run (PoolRuns c)) = Hangs.
Proof.
  intros Hload Hg. rewrite (main_task_lost ds c) by done.
  split; [|done]. cbn [trace fst].
  by rewrite dumps_app, workers_dumps.
Qed.

Lemma main_load_fails e pool :
  load_dataset "QM7" "data" = Raised e →
  run pool = ([EvPrint "Loading QM7 dataset..."], Ended (Raised e)).
Proof.
  intros Hload. unfold main, mbind, IO_bind, print, emit, call.
  by rewrite Hload.
Qed.

Lemma main_pool_creation_fails ds e :
  load_dataset "QM7" "data" = Returned ds →
  dumps (trace (run (PoolCreationFails e))) = []
  ∧ result (run (PoolCreationFails e)) = Raised e.
Proof.
  intros Hload. unfold main, mbind, IO_bind, print, emit, call.
  by rewrite Hload.
Qed.

(** A run whose pool fails in [map]: the script raises after the events
    of the workers that ran. *)
Lemma main_pool_map_fails_trace ds c e :
  load_dataset "QM7" "data" = Returned ds →
  run (PoolMapFails c e)
  = ([EvPrint "Loading QM7 dataset...";
      EvPrint ("Loaded " +:+ pretty (length ds) +:+ " molecules");
      EvPrint ("Using " +:+ pretty 32 +:+ " parallel processes");
      EvPrint "Computing SCF density matrices in parallel...";
      EvPoolCreated 32]
     ++ (i ← c; default [] (trace <$> (wrapper <$> work_list ds) !! i)),
     Ended (Raised e)).
Proof.
  intros Hload. unfold main.
  unfold mbind, IO_bind. unfold print, emit, call, mret, IO_ret.
  rewrite Hload. unfold pool_map.
  unfold mbind, IO_bind. unfold print, emit, call, raise, mret, IO_ret.
  cbn [app]. by rewrite !app_nil_r.
Qed.

Lemma main_pool_map_fails ds c e :
  load_dataset "QM7" "data" = Returned ds →
  dumps (trace (run (PoolMapFails c e))) = []
  ∧ result (run (PoolMapFails c e)) = Raised e.
Proof.
  intros Hload. rewrite (main_pool_map_fails_trace ds c e) by done.
  split; [|done]. cbn [trace fst].
  by rewrite dumps_app, workers_dumps.
Qed.

(** With a working pool no exception reaches the orchestrator: the
    script returns, or it hangs in [pool.map]. *)
Lemma main_returns_or_hangs ds c :
  load_dataset "QM7" "data" = Returned ds →
  result (run (PoolRuns c)) = Returned ()
  ∨ result (run (PoolRuns c)) = Hangs.
Proof.
  intros Hload.
  destruct (collected_or_lost str is_Exception scf_density_matrix ds)
    as [[results Hg]|Hg].
  - left. by destruct (run_collected ds c results Hload Hg).
  - right. by destruct (main_task_lost_dumps ds c Hload Hg).
Qed.

End run_shapes.

(* ===================================================================== *)
(* Properties of the script                                              *)
(* ===================================================================== *)

Section properties.
Context {Atoms Density PyException : Type}.
Variable str : PyException → string.
Variable is_Exception : PyException → bool.
Variable scf_density_matrix : Atoms → string → outcome PyException Density.
Variable load_dataset : string → string → outcome PyException (list Atoms).

Local Abbreviation wrapper := (compute_density_safe str is_Exception scf_density_matrix).
Local Abbreviation work_list := (imap (λ (i : nat) (atoms : Atoms), (i, atoms))).
Local Abbreviation run := (main str is_Exception scf_density_matrix load_dataset).

(** C1.  In a run over a dataset of [N] items in which nothing leaves
    the wrapper, the script dumps one structure; the key sets of its
    densities and errors dictionaries are disjoint, their union is the set
    of indices [0, ..., N-1], and no key occurs twice in a dictionary:
    every index has exactly one outcome. *)
Theorem outcome_keys_partition_indices ds c :
  load_dataset "QM7" "data" = Returned ds →
  Forall (contained is_Exception scf_density_matrix) ds →
  ∃ out,
    dumps (trace (run (PoolRuns c))) = [("densities.pkl", out)]
    ∧ PyDict.keyset (densities out) ## PyDict.keyset (errors out)
    ∧ PyDict.keyset (densities out) ∪ PyDict.keyset (errors out)
      = set_seq 0 (length ds)
    ∧ NoDup (PyDict.keys (densities out))
    ∧ NoDup (PyDict.keys (errors out))
    ∧ ∀ i, i < length ds →
        (i ∈ PyDict.keys (densities out) ∧ i ∉ PyDict.keys (errors out))
        ∨ (i ∈ PyDict.keys (errors out) ∧ i ∉ PyDict.keys (densities out)).
Proof.
  intros Hload Hc.
  destruct (run_artifact str is_Exception scf_density_matrix load_dataset
              ds c Hload Hc) as (results & Hg & _ & _ & Hdump).
  eexists. split; [exact Hdump|]. cbn [densities errors].
  destruct (run_keysets str is_Exception scf_density_matrix ds results Hg)
    as [Hdisj Hunion].
  destruct (separate_results_NoDup results) as [Hd He].
  split_and!; try done.
  intros i Hi. rewrite <-!PyDictFacts.keyset_keys.
  assert (i ∈ PyDict.keyset (separate_results results).1
              ∪ PyDict.keyset (separate_results results).2) as Hin.
  { rewrite Hunion. apply elem_of_set_seq. lia. }
  set_solver.
Qed.

(** C5.  In a run in which nothing leaves the wrapper, the metadata of
    the dumped structure satisfies
    [successful + failed = total_molecules = N], where [N] is the number
    of items of the dataset, [successful] the size of the densities
    dictionary and [failed] the size of the errors dictionary. *)
Theorem metadata_counts_add_up ds c :
  load_dataset "QM7" "data" = Returned ds →
  Forall (contained is_Exception scf_density_matrix) ds →
  ∃ out,
    dumps (trace (run (PoolRuns c))) = [("densities.pkl", out)]
    ∧ successful (meta out) + failed (meta out) = total_molecules (meta out)
    ∧ total_molecules (meta out) = length ds
    ∧ successful (meta out) = size (PyDict.to_map (densities out))
    ∧ failed (meta out) = size (PyDict.to_map (errors out)).
Proof.
  intros Hload Hc.
  destruct (run_artifact str is_Exception scf_density_matrix load_dataset
              ds c Hload Hc) as (results & Hg & _ & _ & Hdump).
  eexists. split; [exact Hdump|].
  cbn [densities errors meta successful failed total_molecules].
  destruct (separate_results_NoDup results) as [Hd He].
  split_and!; auto using PyDictFacts.len_to_map.
  by apply (run_lens str is_Exception scf_density_matrix).
Qed.

(** C9.  The wrapper keeps the index.  Every record it returns carries
    the index it was given, and exactly one of the two other components of
    the record is [None].  When nothing the routine raises for the
    molecule leaves the wrapper, it returns: the density and no message
    after a return of the routine, no density and the message after a
    raise.  The wrapper raises only what the routine raised outside
    [Exception], and it always ends. *)
Theorem wrapper_preserves_index idx atoms :
  (∀ r, result (wrapper (idx, atoms)) = Returned r →
        r.1.1 = idx
        ∧ ((r.1.2 ≠ None ∧ r.2 = None) ∨ (r.1.2 = None ∧ r.2 ≠ None)))
  ∧ (∀ e, result (wrapper (idx, atoms)) = Raised e →
          scf_density_matrix atoms "sto-3g" = Raised e
          ∧ is_Exception e = false)
  ∧ result (wrapper (idx, atoms)) ≠ Hangs
  ∧ (contained is_Exception scf_density_matrix atoms →
     ∃ dm msg,
       result (wrapper (idx, atoms)) = Returned (idx, dm, msg)
       ∧ ((dm ≠ None ∧ msg = None) ∨ (dm = None ∧ msg ≠ None))
       ∧ (∀ density_matrix,
            scf_density_matrix atoms "sto-3g" = Returned density_matrix →
            dm = Some density_matrix ∧ msg = None)
       ∧ (∀ e,
            scf_density_matrix atoms "sto-3g" = Raised e →
            dm = None ∧ msg = Some (error_message str idx e))).
Proof.
  split_and!.
  - intros r Hr. split; [by eapply compute_density_safe_index|].
    rewrite compute_density_safe_unfold in Hr.
    destruct (scf_density_matrix atoms "sto-3g") as [d|e];
      [|destruct (is_Exception e)]; simplify_eq/=; naive_solver.
  - intros e. apply compute_density_safe_raised.
  - rewrite compute_density_safe_unfold.
    destruct (scf_density_matrix atoms "sto-3g") as [d|e];
      [|destruct (is_Exception e)]; done.
  - intros Hc. rewrite (compute_density_safe_result _ _ _ idx atoms Hc).
    destruct (scf_density_matrix atoms "sto-3g") as [density_matrix|e];
      do 2 eexists; (split; [reflexivity|]); split_and!;
      try (intros ? [= <-]); naive_solver.
Qed.

(** C10.  When the loader returns an empty dataset the run still
    completes and dumps once: both dictionaries are empty and the metadata
    counts are all zero. *)
Theorem empty_dataset_run c :
  load_dataset "QM7" "data" = Returned [] →
  result (run (PoolRuns c)) = Returned ()
  ∧ dumps (trace (run (PoolRuns c)))
    = [("densities.pkl",
        {| densities := PyDict.empty;
           errors := PyDict.empty;
           meta := {| basis := "sto-3g"; total_molecules := 0;
                      successful := 0; failed := 0 |} |})].
Proof.
  intros Hload.
  destruct (run_artifact str is_Exception scf_density_matrix load_dataset
              [] c Hload (Forall_nil_2 _))
    as (results & Hg & _ & Hres & Hdump).
  simpl in Hg. injection Hg as <-. by split.
Qed.

(** The message of a failure record is never the empty string. *)
Lemma error_message_nonempty idx e : error_message str idx e ≠ "".
Proof. unfold error_message. simpl. discriminate. Qed.

(** C2, as amended.  When the numerical routine raises an exception
    derived from [Exception] for item [i], in a run in which nothing
    leaves the wrapper for the other items, the dumped errors dictionary
    maps [i] to a non-empty message, the densities dictionary has no entry
    for [i], and the entries of every other index are the same as in any
    run in which the other items behave the same and item [i] does
    anything that does not leave the wrapper: returns, or raises another
    exception derived from [Exception]. *)
Theorem failing_item_is_isolated ds c i atoms e :
  load_dataset "QM7" "data" = Returned ds →
  ds !! i = Some atoms →
  scf_density_matrix atoms "sto-3g" = Raised e →
  is_Exception e = true →
  (∀ j a, j ≠ i → ds !! j = Some a →
     contained is_Exception scf_density_matrix a) →
  ∃ out msg,
    dumps (trace (run (PoolRuns c))) = [("densities.pkl", out)]
    ∧ PyDict.to_map (errors out) !! i = Some msg
    ∧ msg ≠ ""
    ∧ PyDict.to_map (densities out) !! i = None
    ∧ ∀ (scf' : Atoms → string → outcome PyException Density)
        (load' : string → string → outcome PyException (list Atoms))
        ds' c',
        load' "QM7" "data" = Returned ds' →
        (∀ a', ds' !! i = Some a' → contained is_Exception scf' a') →
        (∀ j, j ≠ i →
           (λ a, scf' a "sto-3g") <$> ds' !! j
           = (λ a, scf_density_matrix a "sto-3g") <$> ds !! j) →
        ∃ out',
          dumps (trace (main str is_Exception scf' load' (PoolRuns c')))
          = [("densities.pkl", out')]
          ∧ ∀ j, j ≠ i →
              PyDict.to_map (densities out') !! j
              = PyDict.to_map (densities out) !! j
              ∧ PyDict.to_map (errors out') !! j
                = PyDict.to_map (errors out) !! j.
Proof.
  intros Hload Hi Hraise He Hothers.
  assert (Forall (contained is_Exception scf_density_matrix) ds) as Hc.
  { apply Forall_forall. intros a [j Hj]%list_elem_of_lookup.
    destruct (decide (j = i)) as [->|Hne]; [|by eapply Hothers].
    intros e' He'. congruence. }
  destruct (run_artifact str is_Exception scf_density_matrix load_dataset
              ds c Hload Hc) as (results & Hg & _ & _ & Hdump).
  exists {| densities := (separate_results results).1;
            errors := (separate_results results).2;
            meta := {| basis := "sto-3g";
                       total_molecules := length ds;
                       successful := PyDict.len (separate_results results).1;
                       failed := PyDict.len (separate_results results).2 |} |}.
  exists (error_message str i e).
  cbn [densities errors]. split_and!.
  - exact Hdump.
  - rewrite (run_errors_lookup str is_Exception scf_density_matrix ds)
      by done.
    rewrite Hi. simpl. by rewrite Hraise.
  - apply error_message_nonempty.
  - rewrite (run_densities_lookup str is_Exception scf_density_matrix ds)
      by done.
    rewrite Hi. simpl. by rewrite Hraise.
  - intros scf' load' ds' c' Hload' Hi' Hsame.
    assert (Forall (contained is_Exception scf') ds') as Hc'.
    { apply Forall_forall. intros a' [j Hj]%list_elem_of_lookup.
      destruct (decide (j = i)) as [->|Hne]; [by apply Hi'|].
      specialize (Hsame j Hne). rewrite Hj in Hsame.
      destruct (ds !! j) as [a|] eqn:Hja; simplify_eq/=.
      intros e' He'. apply (Hothers j a Hne Hja e'). congruence. }
    destruct (run_artifact str is_Exception scf' load' ds' c' Hload' Hc')
      as (results' & Hg' & _ & _ & Hdump').
    eexists. split; [exact Hdump'|]. cbn [densities errors].
    intros j Hj. specialize (Hsame j Hj).
    rewrite (run_densities_lookup str is_Exception scf' ds') by done.
    rewrite (run_errors_lookup str is_Exception scf' ds') by done.
    rewrite (run_densities_lookup str is_Exception scf_density_matrix ds)
      by done.
    rewrite (run_errors_lookup str is_Exception scf_density_matrix ds)
      by done.
    destruct (ds' !! j) as [a'|], (ds !! j) as [a|]; simplify_eq/=; [|done].
    by rewrite Hsame.
Qed.

(** C3, as amended.  An exception of the numerical routine that is an
    instance of [Exception] is caught in the wrapper, which prints the
    message naming index and exception and returns the failure record with
    the item's index and this message.  No exception of an item reaches
    the orchestrator: with a working pool the script never raises.  When
    nothing leaves the wrapper for the other items either, [pool.map]
    returns the records of all items, the failing one among them, and the
    script returns after its single dump. *)
Theorem exception_becomes_failure_record ds c i atoms e :
  load_dataset "QM7" "data" = Returned ds →
  ds !! i = Some atoms →
  scf_density_matrix atoms "sto-3g" = Raised e →
  is_Exception e = true →
  (∀ idx,
     trace (wrapper (idx, atoms))
     = [EvPrint ("Error computing density for molecule "
                   +:+ pretty idx +:+ ": " +:+ str e)]
     ∧ result (wrapper (idx, atoms))
       = Returned (idx, None,
                   Some ("Error computing density for molecule "
                           +:+ pretty idx +:+ ": " +:+ str e)))
  ∧ (∀ e', result (run (PoolRuns c)) ≠ Raised e')
  ∧ (Forall (contained is_Exception scf_density_matrix) ds →
     ∃ results,
       result (pool_map (PoolRuns c) is_Exception 32 wrapper (work_list ds))
       = Returned results
       ∧ length results = length ds
       ∧ results !! i = Some (i, None, Some (error_message str i e))
       ∧ (∀ j a, ds !! j = Some a →
            ∃ r, results !! j = Some r
                 ∧ result (wrapper (j, a)) = Returned r)
       ∧ result (run (PoolRuns c)) = Returned ()
       ∧ length (dumps (trace (run (PoolRuns c)))) = 1).
Proof.
  intros Hload Hi Hraise He. split_and!.
  - intros idx. rewrite compute_density_safe_unfold. by rewrite Hraise, He.
  - intros e' He'.
    destruct (main_returns_or_hangs str is_Exception scf_density_matrix
                load_dataset ds c Hload); congruence.
  - intros Hc.
    destruct (run_artifact str is_Exception scf_density_matrix load_dataset
                ds c Hload Hc) as (results & Hg & Hpool & Hres & Hdump).
    exists results.
    assert (∀ j a, ds !! j = Some a →
              ∃ r, results !! j = Some r
                   ∧ result (wrapper (j, a)) = Returned r) as Hall.
    { intros j a Hj.
      pose proof (collected_lookup str is_Exception scf_density_matrix
                    ds results j Hg) as Hl.
      rewrite Hj in Hl. apply fmap_Some in Hl as (r & Hr & Hw). eauto. }
    split_and!; try done.
    + by eapply collected_length.
    + destruct (Hall i atoms Hi) as (r & -> & Hr).
      rewrite compute_density_safe_unfold, Hraise, He in Hr. simpl in Hr.
      congruence.
    + by rewrite Hdump.
Qed.

(** C4.  The dumped structure is the same for every order in which the
    workers complete, and separating the collected records in any
    permuted order gives dictionaries with the same keys and values,
    because each record carries its index.  For the items [A, B, C] with
    [B] failing, the densities are [{0: resultA, 2: resultC}] and the
    errors [{1: message}]. *)
Theorem completion_order_is_irrelevant ds c c' results results' :
  load_dataset "QM7" "data" = Returned ds →
  result (pool_map (PoolRuns c) is_Exception 32 wrapper (work_list ds))
  = Returned results →
  results' ≡ₚ results →
  dumps (trace (run (PoolRuns c'))) = dumps (trace (run (PoolRuns c)))
  ∧ (∃ out,
       dumps (trace (run (PoolRuns c))) = [("densities.pkl", out)]
       ∧ densities out = (separate_results results).1
       ∧ errors out = (separate_results results).2)
  ∧ PyDict.to_map (separate_results results').1
    = PyDict.to_map (separate_results results).1
  ∧ PyDict.to_map (separate_results results').2
    = PyDict.to_map (separate_results results).2
  ∧ ∀ A B C resultA resultC e,
      ds = [A; B; C] →
      scf_density_matrix A "sto-3g" = Returned resultA →
      scf_density_matrix B "sto-3g" = Raised e →
      scf_density_matrix C "sto-3g" = Returned resultC →
      PyDict.to_map (separate_results results').1
      = {[ 0 := Some resultA; 2 := Some resultC ]}
      ∧ PyDict.to_map (separate_results results').2
        = {[ 1 := error_message str 1 e ]}.
Proof.
  intros Hload Hg Hperm. rewrite pool_map_result in Hg.
  destruct (run_collected str is_Exception scf_density_matrix load_dataset
              ds c results Hload Hg) as [_ Hdump].
  destruct (run_collected str is_Exception scf_density_matrix load_dataset
              ds c' results Hload Hg) as [_ Hdump'].
  destruct (separate_results_Permutation results results') as [Hd He];
    [by eapply collected_NoDup|done|].
  split_and!; try done.
  - by rewrite Hdump, Hdump'.
  - eexists. by split; [exact Hdump|].
  - intros A B C resultA resultC e -> HA HB HC. rewrite Hd, He.
    split; apply map_eq; intros k.
    + rewrite (run_densities_lookup str is_Exception scf_density_matrix [A; B; C])
        by done.
      destruct k as [|[|[|k]]]; simpl; rewrite ?HA, ?HB, ?HC;
        by simplify_map_eq.
    + rewrite (run_errors_lookup str is_Exception scf_density_matrix [A; B; C])
        by done.
      destruct k as [|[|[|k]]]; simpl; rewrite ?HA, ?HB, ?HC;
        by simplify_map_eq.
Qed.

(** C7.  In every run the script dumps at most once.  When the dataset
    loads, the pool works and nothing leaves the wrapper, the one dump
    comes after [pool.map] has returned the records of all items and
    nothing is dumped before or after it.  When the loader raises, or the
    pool fails at creation or while mapping, the script raises and nothing
    is dumped.  When an exception leaves the wrapper of some item,
    [pool.map] never returns: the script hangs and nothing is dumped. *)
Theorem single_dump_after_pool_map pool :
  length (dumps (trace (run pool))) ≤ 1
  ∧ match load_dataset "QM7" "data", pool with
  | Returned ds, PoolRuns c =>
      (Forall (contained is_Exception scf_density_matrix) ds →
       ∃ pre out post,
         trace (run pool) = pre ++ EvDump "densities.pkl" out :: post
         ∧ EvPoolMapReturned (length ds) ∈ pre
         ∧ dumps pre = [] ∧ dumps post = []
         ∧ result (run pool) = Returned ())
      ∧ (∀ i atoms e,
           ds !! i = Some atoms →
           scf_density_matrix atoms "sto-3g" = Raised e →
           is_Exception e = false →
           dumps (trace (run pool)) = [] ∧ result (run pool) = Hangs)
  | Returned ds, PoolCreationFails e | Returned ds, PoolMapFails _ e =>
      dumps (trace (run pool)) = [] ∧ result (run pool) = Raised e
  | Raised e, _ =>
      dumps (trace (run pool)) = [] ∧ result (run pool) = Raised e
  end.
Proof.
  destruct (load_dataset "QM7" "data") as [ds|e] eqn:Hload.
  - destruct pool as [c|e|c e].
    + destruct (collected_or_lost str is_Exception scf_density_matrix ds)
        as [[results Hg]|Hg].
      * destruct (main_runs str is_Exception scf_density_matrix load_dataset
                    ds c results Hload Hg)
          as (pre & post & Hrun & Hpre & Hpost & Hin).
        rewrite Hrun. split_and!.
        -- cbn [trace fst].
           by rewrite dumps_app, dumps_cons_dump, Hpre, Hpost.
        -- intros _. by eexists pre, _, post.
        -- intros i atoms e Hi Hraise He.
           pose proof (collected_item_contained str is_Exception
                         scf_density_matrix ds results i atoms Hg Hi
                         e Hraise).
           congruence.
      * destruct (main_task_lost_dumps str is_Exception scf_density_matrix
                    load_dataset ds c Hload Hg) as [Hd Hr].
        split_and!.
        -- rewrite Hd. simpl. lia.
        -- intros Hc.
           destruct (collected_exists str is_Exception scf_density_matrix
                       ds Hc) as [results Hg'].
           congruence.
        -- done.
    + destruct (main_pool_creation_fails str is_Exception scf_density_matrix
                  _ ds e Hload) as [-> ->].
      split; [simpl; lia|done].
    + destruct (main_pool_map_fails str is_Exception scf_density_matrix
                  _ ds c e Hload) as [-> ->].
      split; [simpl; lia|done].
  - rewrite (main_load_fails str is_Exception scf_density_matrix _ e) by done.
    split; [simpl; lia|done].
Qed.

(** C8.  A dataset of five items of which exactly the one at index 2
    makes the numerical routine raise (an exception derived from
    [Exception]): the dumped densities dictionary has the four entries of
    the indices 0, 1, 3, 4, the errors dictionary the single entry of
    index 2 with a non-empty message, and the metadata counts are 5, 4
    and 1. *)
Theorem five_items_one_failure a0 a1 a2 a3 a4 d0 d1 d3 d4 e c :
  load_dataset "QM7" "data" = Returned [a0; a1; a2; a3; a4] →
  scf_density_matrix a0 "sto-3g" = Returned d0 →
  scf_density_matrix a1 "sto-3g" = Returned d1 →
  scf_density_matrix a2 "sto-3g" = Raised e →
  is_Exception e = true →
  scf_density_matrix a3 "sto-3g" = Returned d3 →
  scf_density_matrix a4 "sto-3g" = Returned d4 →
  ∃ out msg,
    dumps (trace (run (PoolRuns c))) = [("densities.pkl", out)]
    ∧ densities out = [(0, Some d0); (1, Some d1); (3, Some d3); (4, Some d4)]
    ∧ errors out = [(2, msg)]
    ∧ msg ≠ ""
    ∧ meta out = {| basis := "sto-3g"; total_molecules := 5;
                    successful := 4; failed := 1 |}.
Proof.
  intros Hload H0 H1 H2 He H3 H4.
  assert (Forall (contained is_Exception scf_density_matrix)
            [a0; a1; a2; a3; a4]) as Hc.
  { repeat constructor; intros e' He'; congruence. }
  destruct (run_artifact str is_Exception scf_density_matrix load_dataset
              _ c Hload Hc) as (results & Hg & _ & _ & Hdump).
  cbn [imap fmap list_fmap compose] in Hg.
  rewrite !compute_density_safe_unfold, H0, H1, H2, H3, H4, He in Hg.
  injection Hg as <-.
  eexists; exists (error_message str 2 e).
  split; [exact Hdump|].
  split_and!; [done|done|apply error_message_nonempty|done].
Qed.

End properties.

(* ===================================================================== *)
(* The properties on concrete runs                                       *)
(* ===================================================================== *)

Example demo_run :
  DemoRun.main_qm5 (PoolRuns [4; 3; 2; 1; 0])
  = ([EvPrint "Loading QM7 dataset...";
      EvPrint "Loaded 5 molecules";
      EvPrint "Using 32 parallel processes";
      EvPrint "Computing SCF density matrices in parallel...";
      EvPoolCreated 32;
      EvPrint "Error computing density for molecule 2: molecule has no atoms";
      EvPoolMapReturned 5;
      EvPrint "Successfully computed 4 density matrices";
      EvPrint "Failed to compute 1 density matrices";
      EvPrint "Saving results to densities.pkl...";
      EvDump "densities.pkl"
        {| densities := [(0, Some 10); (1, Some 16); (3, Some 14); (4, Some 2)];
           errors :=
             [(2, "Error computing density for molecule 2: molecule has no atoms")];
           meta := {| basis := "sto-3g"; total_molecules := 5;
                      successful := 4; failed := 1 |} |};
      EvPrint "Done! Results saved to densities.pkl";
      EvPrint "Summary: 4/5 successful computations";
      EvPrint "Errors encountered for indices: [2]"],
     Ended (Returned ())).
Proof. vm_compute. reflexivity. Qed.

Example exiting_run :
  DemoRun.main_exiting (PoolRuns [2; 1; 0])
  = ([EvPrint "Loading QM7 dataset...";
      EvPrint "Loaded 3 molecules";
      EvPrint "Using 32 parallel processes";
      EvPrint "Computing SCF density matrices in parallel...";
      EvPoolCreated 32],
     Hangs).
Proof. vm_compute. reflexivity. Qed.

Lemma outcome_keys_partition_indices_witness :
  Demo.load_dataset "QM7" "data" = Returned Demo.qm5
  ∧ Forall (contained Demo.is_Exception Demo.scf_density_matrix) Demo.qm5
  ∧ ∃ out,
      dumps (trace (DemoRun.main_qm5 (PoolRuns [4; 3; 2; 1; 0])))
      = [("densities.pkl", out)]
      ∧ PyDict.keyset (densities out) ## PyDict.keyset (errors out)
      ∧ PyDict.keyset (densities out) ∪ PyDict.keyset (errors out)
        = set_seq 0 5
      ∧ NoDup (PyDict.keys (densities out))
      ∧ NoDup (PyDict.keys (errors out))
      ∧ ∀ i, i < 5 →
          (i ∈ PyDict.keys (densities out) ∧ i ∉ PyDict.keys (errors out))
          ∨ (i ∈ PyDict.keys (errors out) ∧ i ∉ PyDict.keys (densities out)).
Proof.
  split_and!; [reflexivity|demo_contained|].
  apply (outcome_keys_partition_indices Demo.str Demo.is_Exception
           Demo.scf_density_matrix Demo.load_dataset Demo.qm5
           [4; 3; 2; 1; 0]); [reflexivity|demo_contained].
Defined.

Lemma failing_item_is_isolated_witness :
  Demo.load_dataset "QM7" "data" = Returned Demo.qm5
  ∧ Demo.qm5 !! 2 = Some []
  ∧ Demo.scf_density_matrix [] "sto-3g" = Raised "molecule has no atoms"
  ∧ Demo.is_Exception "molecule has no atoms" = true
  ∧ (∀ j a, j ≠ 2 → Demo.qm5 !! j = Some a →
       contained Demo.is_Exception Demo.scf_density_matrix a)
  ∧ ∃ out msg,
      dumps (trace (DemoRun.main_qm5 (PoolRuns [0; 1; 2; 3; 4])))
      = [("densities.pkl", out)]
      ∧ PyDict.to_map (errors out) !! 2 = Some msg
      ∧ msg ≠ ""
      ∧ PyDict.to_map (densities out) !! 2 = None
      ∧ ∃ out',
          dumps (trace (DemoRun.main_repaired (PoolRuns [2; 0; 4; 1; 3])))
          = [("densities.pkl", out')]
          ∧ ∀ j, j ≠ 2 →
              PyDict.to_map (densities out') !! j
              = PyDict.to_map (densities out) !! j
              ∧ PyDict.to_map (errors out') !! j
                = PyDict.to_map (errors out) !! j.
Proof.
  assert (∀ j a, j ≠ 2 → Demo.qm5 !! j = Some a →
            contained Demo.is_Exception Demo.scf_density_matrix a)
    as Hothers by (intros ? ? _ _ ? _; reflexivity).
  do 4 (split; [reflexivity|]). split; [exact Hothers|].
  destruct (failing_item_is_isolated Demo.str Demo.is_Exception
              Demo.scf_density_matrix Demo.load_dataset Demo.qm5
              [0; 1; 2; 3; 4] 2 [] "molecule has no atoms"
              eq_refl eq_refl eq_refl eq_refl Hothers)
    as (out & msg & Hdump & Herr & Hmsg & Hden & Hsame).
  exists out, msg. split_and!; [assumption..|].
  apply (Hsame Demo.scf_density_matrix Demo.load_repaired
           (<[2:=[1; 1]]> Demo.qm5) [2; 0; 4; 1; 3] eq_refl).
  - intros ? _ ? _. reflexivity.
  - intros [|[|[|[|[|j]]]]] Hj; first [reflexivity | by destruct Hj].
Defined.

(** A molecule on which the routine exits: [SystemExit] is not an
    instance of [Exception] and leaves the wrapper, the task is lost and
    the script hangs in [pool.map] before anything is dumped.  The errors
    dictionary of the claim is never written, and the outcomes of the
    other items are lost with it. *)
Lemma exiting_item_is_not_isolated :
  Exiting.load_dataset "QM7" "data" = Returned Exiting.dataset
  ∧ Exiting.dataset !! 1 = Some [0]
  ∧ Exiting.scf_density_matrix [0] "sto-3g" = Raised Exiting.SystemExit
  ∧ result (DemoRun.main_exiting (PoolRuns [0; 1; 2])) = Hangs
  ∧ dumps (trace (DemoRun.main_exiting (PoolRuns [0; 1; 2]))) = []
  ∧ ¬ ∃ out msg,
        dumps (trace (DemoRun.main_exiting (PoolRuns [0; 1; 2])))
        = [("densities.pkl", out)]
        ∧ PyDict.to_map (errors out) !! 1 = Some msg.
Proof.
  split_and!; [reflexivity..|].
  intros (out & msg & Hdump & _). vm_compute in Hdump. discriminate.
Qed.

Lemma exception_becomes_failure_record_witness :
  Demo.load_dataset "QM7" "data" = Returned Demo.qm5
  ∧ Demo.qm5 !! 2 = Some []
  ∧ Demo.scf_density_matrix [] "sto-3g" = Raised "molecule has no atoms"
  ∧ Demo.is_Exception "molecule has no atoms" = true
  ∧ (trace (DemoRun.wrapper (2, []))
     = [EvPrint
          "Error computing density for molecule 2: molecule has no atoms"]
     ∧ result (DemoRun.wrapper (2, []))
       = Returned
           (2, None,
            Some
              "Error computing density for molecule 2: molecule has no atoms"))
  ∧ ∃ results,
      result (pool_map (PoolRuns [3; 1; 4; 0; 2]) Demo.is_Exception 32
                DemoRun.wrapper (imap (λ i atoms, (i, atoms)) Demo.qm5))
      = Returned results
      ∧ length results = 5
      ∧ results !! 2
        = Some
            (2, None,
             Some "Error computing density for molecule 2: molecule has no atoms")
      ∧ result (DemoRun.main_qm5 (PoolRuns [3; 1; 4; 0; 2])) = Returned ()
      ∧ length (dumps (trace (DemoRun.main_qm5 (PoolRuns [3; 1; 4; 0; 2]))))
        = 1.
Proof.
  do 4 (split; [reflexivity|]). split.
  - exact (proj1 (exception_becomes_failure_record Demo.str
                    Demo.is_Exception Demo.scf_density_matrix
                    Demo.load_dataset Demo.qm5
                    [3; 1; 4; 0; 2] 2 [] "molecule has no atoms"
                    eq_refl eq_refl eq_refl eq_refl) 2).
  - destruct (exception_becomes_failure_record Demo.str
                Demo.is_Exception Demo.scf_density_matrix
                Demo.load_dataset Demo.qm5
                [3; 1; 4; 0; 2] 2 [] "molecule has no atoms"
                eq_refl eq_refl eq_refl eq_refl)
      as (_ & _ & Hbatch).
    destruct Hbatch as (results & Hpool & Hlen & Hrec & _ & Hres & Hdump);
      [demo_contained|].
    exists results. split_and!; assumption.
Defined.

(** The [SystemExit] of the routine is not caught in the wrapper: the
    wrapper raises it and returns no record for the item, the task is
    lost, and the batch does not continue: the script hangs in
    [pool.map] and dumps nothing. *)
Lemma exit_leaves_the_wrapper :
  Exiting.scf_density_matrix [0] "sto-3g" = Raised Exiting.SystemExit
  ∧ trace (DemoRun.wrapper_exiting (1, [0])) = []
  ∧ result (DemoRun.wrapper_exiting (1, [0])) = Raised Exiting.SystemExit
  ∧ (¬ ∃ r, result (DemoRun.wrapper_exiting (1, [0])) = Returned r)
  ∧ result (DemoRun.main_exiting (PoolRuns [0; 1; 2])) = Hangs
  ∧ result (DemoRun.main_exiting (PoolRuns [0; 1; 2])) ≠ Returned ()
  ∧ dumps (trace (DemoRun.main_exiting (PoolRuns [0; 1; 2]))) = [].
Proof.
  split_and!; try reflexivity.
  - intros [r Hr]. vm_compute in Hr. discriminate.
  - intros Hr. vm_compute in Hr. discriminate.
Qed.

Lemma completion_order_is_irrelevant_witness :
  Demo.load_abc "QM7" "data" = Returned Demo.abc
  ∧ result (pool_map (PoolRuns [0; 1; 2]) Demo.is_Exception 32
              DemoRun.wrapper (imap (λ i atoms, (i, atoms)) Demo.abc))
    = Returned Demo.abc_records
  ∧ reverse Demo.abc_records ≡ₚ Demo.abc_records
  ∧ dumps (trace (DemoRun.main_abc (PoolRuns [2; 1; 0])))
    = dumps (trace (DemoRun.main_abc (PoolRuns [0; 1; 2])))
  ∧ PyDict.to_map (separate_results (reverse Demo.abc_records)).1
    = {[ 0 := Some 10; 2 := Some 16 ]}
  ∧ PyDict.to_map (separate_results (reverse Demo.abc_records)).2
    = {[ 1 := "Error computing density for molecule 1: molecule has no atoms" ]}.
Proof.
  split_and!;
    [ reflexivity | reflexivity | apply reverse_Permutation
    | idtac | idtac | idtac ];
    destruct (completion_order_is_irrelevant Demo.str Demo.is_Exception
                Demo.scf_density_matrix Demo.load_abc Demo.abc
                [0; 1; 2] [2; 1; 0] Demo.abc_records
                (reverse Demo.abc_records)
                eq_refl eq_refl (reverse_Permutation Demo.abc_records))
      as (Hdumps & _ & _ & _ & Habc);
    [ exact Hdumps
    | exact (proj1 (Habc _ _ _ 10 16 "molecule has no atoms"
                      eq_refl eq_refl eq_refl eq_refl))
    | exact (proj2 (Habc _ _ _ 10 16 "molecule has no atoms"
                      eq_refl eq_refl eq_refl eq_refl)) ].
Defined.

Lemma metadata_counts_add_up_witness :
  Demo.load_dataset "QM7" "data" = Returned Demo.qm5
  ∧ Forall (contained Demo.is_Exception Demo.scf_density_matrix) Demo.qm5
  ∧ ∃ out,
      dumps (trace (DemoRun.main_qm5 (PoolRuns [1; 0; 3; 2; 4])))
      = [("densities.pkl", out)]
      ∧ successful (meta out) + failed (meta out) = total_molecules (meta out)
      ∧ total_molecules (meta out) = 5
      ∧ successful (meta out) = size (PyDict.to_map (densities out))
      ∧ failed (meta out) = size (PyDict.to_map (errors out)).
Proof.
  split_and!; [reflexivity|demo_contained|].
  apply (metadata_counts_add_up Demo.str Demo.is_Exception
           Demo.scf_density_matrix Demo.load_dataset Demo.qm5
           [1; 0; 3; 2; 4]); [reflexivity|demo_contained].
Defined.

Lemma five_items_one_failure_witness :
  Demo.load_dataset "QM7" "data"
  = Returned [[6; 1; 1; 1; 1]; [8; 8]; []; [7; 7]; [1; 1]]
  ∧ Demo.scf_density_matrix [6; 1; 1; 1; 1] "sto-3g" = Returned 10
  ∧ Demo.scf_density_matrix [8; 8] "sto-3g" = Returned 16
  ∧ Demo.scf_density_matrix [] "sto-3g" = Raised "molecule has no atoms"
  ∧ Demo.is_Exception "molecule has no atoms" = true
  ∧ Demo.scf_density_matrix [7; 7] "sto-3g" = Returned 14
  ∧ Demo.scf_density_matrix [1; 1] "sto-3g" = Returned 2
  ∧ ∃ out msg,
      dumps (trace (DemoRun.main_qm5 (PoolRuns [0; 1; 2; 3; 4])))
      = [("densities.pkl", out)]
      ∧ densities out = [(0, Some 10); (1, Some 16); (3, Some 14); (4, Some 2)]
      ∧ errors out = [(2, msg)]
      ∧ msg ≠ ""
      ∧ meta out = {| basis := "sto-3g"; total_molecules := 5;
                      successful := 4; failed := 1 |}.
Proof.
  split_and!; [reflexivity..|].
  apply (five_items_one_failure Demo.str Demo.is_Exception Demo.scf_density_matrix
           Demo.load_dataset [6; 1; 1; 1; 1] [8; 8] [] [7; 7] [1; 1]
           10 16 14 2 "molecule has no atoms"
           [0; 1; 2; 3; 4]); reflexivity.
Defined.

Lemma wrapper_preserves_index_witness :
  contained Demo.is_Exception Demo.scf_density_matrix [8; 8]
  ∧ contained Demo.is_Exception Demo.scf_density_matrix []
  ∧ result (DemoRun.wrapper (1, [8; 8])) = Returned (1, Some 16, None)
  ∧ result (DemoRun.wrapper (2, []))
    = Returned
        (2, None,
         Some "Error computing density for molecule 2: molecule has no atoms").
Proof.
  assert (∀ atoms, contained Demo.is_Exception Demo.scf_density_matrix atoms)
    as Hc by (intros ? ? _; reflexivity).
  split_and!; [apply Hc|apply Hc| |].
  - destruct (wrapper_preserves_index Demo.str Demo.is_Exception
                Demo.scf_density_matrix 1 [8; 8])
      as (_ & _ & _ & Hrec).
    destruct (Hrec (Hc _)) as (dm & msg & Hr & _ & Hret & _).
    destruct (Hret 16 eq_refl) as [-> ->]. exact Hr.
  - destruct (wrapper_preserves_index Demo.str Demo.is_Exception
                Demo.scf_density_matrix 2 [])
      as (_ & _ & _ & Hrec).
    destruct (Hrec (Hc _)) as (dm & msg & Hr & _ & _ & Hraise).
    destruct (Hraise "molecule has no atoms" eq_refl) as [-> ->]. exact Hr.
Defined.

Lemma empty_dataset_run_witness :
  Demo.load_empty "QM7" "data" = Returned []
  ∧ result (DemoRun.main_empty (PoolRuns [])) = Returned ()
  ∧ dumps (trace (DemoRun.main_empty (PoolRuns [])))
    = [("densities.pkl",
        {| densities := PyDict.empty;
           errors := PyDict.empty;
           meta := {| basis := "sto-3g"; total_molecules := 0;
                      successful := 0; failed := 0 |} |})].
Proof.
  split; [reflexivity|].
  apply (empty_dataset_run Demo.str Demo.is_Exception Demo.scf_density_matrix Demo.load_empty []).
  reflexivity.
Defined.

(* ===================================================================== *)
(* The dictionaries as lists: insertion order                            *)
(* ===================================================================== *)

(** Storing under a key that is not yet present appends the item. *)
Lemma setitem_fresh {V} (k : nat) (v : V) (d : PyDict.t V) :
  k ∉ PyDict.keys d → PyDict.setitem k v d = d ++ [(k, v)].
Proof.
  unfold PyDict.keys. induction d as [|[k' v'] d IH]; simpl; intros Hk; [done|].
  apply not_elem_of_cons in Hk as [Hne Hk].
  case_decide; [done|]. f_equal. by apply IH.
Qed.

Section separate_lists.
Context {Density : Type}.
Implicit Types (results : list (nat * option Density * option string)).

(** The item a record contributes to the densities dictionary. *)
Local Abbreviation density_item :=
  (λ r : nat * option Density * option string,
     match r.2 with None => Some (r.1.1, r.1.2) | Some _ => None end).

(** The item a record contributes to the errors dictionary. *)
Local Abbreviation error_item :=
  (λ r : nat * option Density * option string, (λ msg, (r.1.1, msg)) <$> r.2).

Lemma density_items_keys results k :
  k ∈ (omap density_item results).*1 → k ∈ results.*1.*1.
Proof.
  intros ([k' dm] & -> & (r & Hr & Hitem)%list_elem_of_omap)%list_elem_of_fmap.
  apply list_elem_of_fmap. exists r.1. split; [|by apply list_elem_of_fmap_2].
  destruct r as [[idx dm'] [msg|]]; simplify_eq/=. done.
Qed.

Lemma error_items_keys results k :
  k ∈ (omap error_item results).*1 → k ∈ results.*1.*1.
Proof.
  intros ([k' m] & -> & (r & Hr & Hitem)%list_elem_of_omap)%list_elem_of_fmap.
  apply list_elem_of_fmap. exists r.1. split; [|by apply list_elem_of_fmap_2].
  destruct r as [[idx dm'] [msg|]]; simplify_eq/=. done.
Qed.

(** With distinct indices nothing is overwritten: each dictionary lists
    the items of its records in the order of the records. *)
Lemma separate_results_items results :
  NoDup (results.*1.*1) →
  separate_results results
  = (omap density_item results, omap error_item results).
Proof.
  induction results as [|r results IH] using rev_ind; intros Hnd; [done|].
  rewrite !fmap_app in Hnd. apply NoDup_app in Hnd as (Hnd & Hfresh & _).
  rewrite separate_results_snoc, (IH Hnd), !omap_app.
  assert (r.1.1 ∉ results.*1.*1) as Hr.
  { intros Hin. apply (Hfresh _ Hin). set_solver. }
  destruct r as [[idx dm] [msg|]]; simpl in *.
  - rewrite setitem_fresh; [by rewrite app_nil_r|].
    intros Hin. by apply Hr, error_items_keys.
  - rewrite setitem_fresh; [by rewrite app_nil_r|].
    intros Hin. by apply Hr, density_items_keys.
Qed.

End separate_lists.

(* ===================================================================== *)
(* Further properties of the separation loop                             *)
(* ===================================================================== *)

Section loop_properties.
Context {Density : Type}.
Implicit Types (results : list (nat * option Density * option string)).

(** X1.  The loop on any list of records, indices repeated or not: the
    densities dictionary maps [k] to the second component of the last
    record with index [k] whose message is [None], the errors dictionary
    maps [k] to the message of the last record with index [k] that has
    one.  A record with a message counts as a failure whatever else it
    carries, the empty message included. *)
Theorem separate_results_last_record_wins results k :
  PyDict.to_map (separate_results results).1 !! k
  = last (omap (λ r : nat * option Density * option string,
                  if decide (r.1.1 = k ∧ r.2 = None) then Some r.1.2 else None)
               results)
  ∧ PyDict.to_map (separate_results results).2 !! k
    = last (omap (λ r : nat * option Density * option string,
                    if decide (r.1.1 = k) then r.2 else None)
                 results).
Proof.
  induction results as [|r results [IHd IHe]] using rev_ind; [done|].
  rewrite separate_results_snoc, !omap_app.
  destruct (separate_results results) as [ds es]; simpl in IHd, IHe.
  destruct r as [[idx dm] [msg|]]; cbn [separate_step fst snd omap list_omap].
  - rewrite PyDictFacts.to_map_setitem.
    rewrite decide_False by naive_solver. rewrite app_nil_r.
    split; [done|]. destruct (decide (idx = k)) as [->|Hne].
    + by rewrite lookup_insert_eq, last_snoc.
    + by rewrite lookup_insert_ne, app_nil_r.
  - rewrite PyDictFacts.to_map_setitem.
    destruct (decide (idx = k)) as [->|Hne].
    + rewrite decide_True by done. rewrite lookup_insert_eq, last_snoc.
      by rewrite app_nil_r.
    + rewrite decide_False by naive_solver.
      by rewrite lookup_insert_ne, !app_nil_r.
Qed.

(** X2.  When the records have distinct indices the loop loses nothing
    and keeps the order: the keys of the densities dictionary are the
    indices of the records without a message, in the order of the
    records, the keys of the errors dictionary those of the records with
    a message, and the two sizes add up to the number of records. *)
Theorem separate_results_keeps_order results :
  NoDup (results.*1.*1) →
  PyDict.keys (separate_results results).1
  = (filter (λ r, r.2 = None) results).*1.*1
  ∧ PyDict.keys (separate_results results).2
    = (filter (λ r, r.2 ≠ None) results).*1.*1
  ∧ PyDict.len (separate_results results).1
      + PyDict.len (separate_results results).2
    = length results.
Proof.
  intros Hnd. rewrite separate_results_items by done. cbn [fst snd].
  clear Hnd. unfold PyDict.keys, PyDict.len.
  induction results as [|[[idx dm] [msg|]] results (IHd & IHe & IHl)];
    [done|..]; cbn [omap list_omap fmap option_fmap option_map fst snd].
  - rewrite filter_cons_False by (simpl; congruence).
    rewrite filter_cons_True by done.
    cbn [fmap list_fmap fst length]. rewrite IHd, <-IHe.
    split_and!; [done|done|]. simpl. lia.
  - rewrite filter_cons_True by done.
    rewrite filter_cons_False by naive_solver.
    cbn [fmap list_fmap fst length]. rewrite <-IHd, IHe.
    split_and!; [done|done|]. simpl. lia.
Qed.

End loop_properties.

Lemma separate_results_keeps_order_witness :
  NoDup ((reverse Demo.abc_records).*1.*1)
  ∧ PyDict.keys (separate_results (reverse Demo.abc_records)).1 = [2; 0]
  ∧ PyDict.keys (separate_results (reverse Demo.abc_records)).2 = [1]
  ∧ PyDict.len (separate_results (reverse Demo.abc_records)).1
      + PyDict.len (separate_results (reverse Demo.abc_records)).2
    = 3.
Proof.
  assert (NoDup ((reverse Demo.abc_records).*1.*1)) as Hnd.
  { repeat (apply NoDup_cons_2; [set_solver|]). apply NoDup_nil_2. }
  split; [exact Hnd|].
  exact (separate_results_keeps_order (reverse Demo.abc_records) Hnd).
Defined.

(* ===================================================================== *)
(* Further facts about runs                                              *)
(* ===================================================================== *)

Lemma StronglySorted_lt_seq (j n : nat) : StronglySorted lt (seq j n).
Proof.
  revert j. induction n as [|n IH]; intros j; simpl; constructor; [done|].
  apply Forall_seq. intros i Hi. lia.
Qed.

Lemma omap_all_None {A B} (f : A → option B) (l : list A) :
  Forall (λ x, f x = None) l → omap f l = [].
Proof.
  induction 1 as [|x l Hx _ IH]; [done|].
  cbn [omap list_omap]. by rewrite Hx.
Qed.

Lemma omap_all_Some {A B} (f : A → option B) (g : A → B) (l : list A) :
  Forall (λ x, f x = Some (g x)) l → omap f l = g <$> l.
Proof.
  induction 1 as [|x l Hx _ IH]; [done|].
  cbn [omap list_omap]. rewrite Hx. simpl. by f_equal.
Qed.

Section key_order.
Context {Density V : Type}.
Variable item : nat * option Density * option string → option (nat * V).
Hypothesis item_key : ∀ r kv, item r = Some kv → kv.1 = r.1.1.

(** Items taken from records with ascending indices have ascending keys. *)
Lemma omap_items_sorted (results : list (nat * option Density * option string)) :
  StronglySorted lt (results.*1.*1) →
  StronglySorted lt ((omap item results).*1).
Proof using item_key.
  induction results as [|r results IH]; [done|].
  cbn [fmap list_fmap]. intros [Hs Hall]%StronglySorted_inv.
  cbn [omap list_omap]. destruct (item r) as [kv|] eqn:Hitem; [|by apply IH].
  cbn [fmap list_fmap]. constructor; [by apply IH|].
  apply Forall_forall. intros k Hk. rewrite (item_key r kv Hitem).
  rewrite Forall_forall in Hall. apply Hall.
  apply list_elem_of_fmap in Hk as (kv' & -> & (r' & Hr' & Hi)%list_elem_of_omap).
  rewrite (item_key r' kv' Hi).
  apply list_elem_of_fmap. exists r'.1. split; [done|].
  by apply list_elem_of_fmap_2.
Qed.

End key_order.

Section run_records.
Context {Atoms Density PyException : Type}.
Variable str : PyException → string.
Variable is_Exception : PyException → bool.
Variable scf_density_matrix : Atoms → string → outcome PyException Density.

Local Abbreviation wrapper := (compute_density_safe str is_Exception scf_density_matrix).
Local Abbreviation work_list := (imap (λ (i : nat) (atoms : Atoms), (i, atoms))).

(** The record of a work item. *)
Local Abbreviation record_of :=
  (λ ia : nat * Atoms,
     match scf_density_matrix ia.2 "sto-3g" with
     | Returned density_matrix => (ia.1, Some density_matrix, None)
     | Raised e => (ia.1, None, Some (error_message str ia.1 e))
     end).

(** The collected results are the records of the work items, in order. *)
Lemma collected_records (ds : list Atoms) results :
  gather is_Exception (result <$> (wrapper <$> work_list ds)) = Returned results →
  results = record_of <$> work_list ds.
Proof.
  intros Hg. apply list_eq. intros i.
  pose proof (collected_lookup str is_Exception scf_density_matrix ds results i Hg) as Hl.
  rewrite list_lookup_fmap, list_lookup_imap.
  destruct (ds !! i) as [a|] eqn:Hi; cbn [fmap option_fmap option_map] in *.
  - rewrite (compute_density_safe_result str is_Exception scf_density_matrix
               i a) in Hl
      by (by eapply collected_item_contained).
    apply fmap_Some in Hl as (r & -> & Hr). f_equal. cbn [fst snd].
    congruence.
  - by apply fmap_None in Hl.
Qed.

(** What a worker prints is the message of its record, if it has one. *)
Lemma wrapper_trace (ia : nat * Atoms) :
  contained is_Exception scf_density_matrix ia.2 →
  trace (wrapper ia)
  = match (record_of ia).2 with
    | Some msg => [EvPrint (D:=Density) msg]
    | None => []
    end.
Proof.
  destruct ia as [i a]. intros Hc. rewrite compute_density_safe_unfold. simpl.
  destruct (scf_density_matrix a "sto-3g") as [d|e] eqn:Hscf; [done|].
  simpl in Hc. by rewrite (Hc e).
Qed.

End run_records.

Section run_trace.
Context {Atoms Density PyException : Type}.
Variable str : PyException → string.
Variable is_Exception : PyException → bool.
Variable scf_density_matrix : Atoms → string → outcome PyException Density.
Variable load_dataset : string → string → outcome PyException (list Atoms).

Local Abbreviation wrapper := (compute_density_safe str is_Exception scf_density_matrix).
Local Abbreviation work_list := (imap (λ (i : nat) (atoms : Atoms), (i, atoms))).
Local Abbreviation run := (main str is_Exception scf_density_matrix load_dataset).

(** The whole trace of a run whose dataset loads and whose pool works. *)
Lemma main_trace ds c results :
  load_dataset "QM7" "data" = Returned ds →
  gather is_Exception (result <$> (wrapper <$> work_list ds)) = Returned results →
  run (PoolRuns c)
  = ([EvPrint "Loading QM7 dataset...";
      EvPrint ("Loaded " +:+ pretty (length ds) +:+ " molecules");
      EvPrint ("Using " +:+ pretty 32 +:+ " parallel processes");
      EvPrint "Computing SCF density matrices in parallel...";
      EvPoolCreated 32]
     ++ (i ← c; default [] (trace <$> (wrapper <$> work_list ds) !! i))
     ++ [EvPoolMapReturned (length ds);
         EvPrint ("Successfully computed "
                    +:+ pretty (PyDict.len (separate_results results).1)
                    +:+ " density matrices");
         EvPrint ("Failed to compute "
                    +:+ pretty (PyDict.len (separate_results results).2)
                    +:+ " density matrices");
         EvPrint "Saving results to densities.pkl...";
         EvDump "densities.pkl"
           {| densities := (separate_results results).1;
              errors := (separate_results results).2;
              meta := {| basis := "sto-3g";
                         total_molecules := length ds;
                         successful := PyDict.len (separate_results results).1;
                         failed := PyDict.len (separate_results results).2 |} |};
         EvPrint "Done! Results saved to densities.pkl";
         EvPrint ("Summary: "
                    +:+ pretty (PyDict.len (separate_results results).1)
                    +:+ "/" +:+ pretty (length ds)
                    +:+ " successful computations")]
     ++ (if PyDict.truthy (separate_results results).2
         then [EvPrint ("Errors encountered for indices: "
                          +:+ repr_list
                                (PyDict.keys (separate_results results).2))]
         else []),
     Ended (Returned ())).
Proof.
  intros Hload Hg. unfold main.
  unfold mbind, IO_bind. unfold print, emit, call, mret, IO_ret.
  rewrite Hload. unfold pool_map.
  unfold mbind, IO_bind. unfold print, emit, call, mret, IO_ret.
  rewrite Hg. rewrite (collected_length _ _ _ ds results Hg).
  destruct (separate_results results) as [densities errors]. cbn [fst snd].
  destruct (PyDict.truthy errors);
    cbn [app fst snd]; rewrite <-!app_assoc; cbn [app]; reflexivity.
Qed.

End run_trace.

(* ===================================================================== *)
(* Further properties of runs                                            *)
(* ===================================================================== *)

Section run_properties.
Context {Atoms Density PyException : Type}.
Variable str : PyException → string.
Variable is_Exception : PyException → bool.
Variable scf_density_matrix : Atoms → string → outcome PyException Density.
Variable load_dataset : string → string → outcome PyException (list Atoms).

Local Abbreviation wrapper := (compute_density_safe str is_Exception scf_density_matrix).
Local Abbreviation work_list := (imap (λ (i : nat) (atoms : Atoms), (i, atoms))).
Local Abbreviation run := (main str is_Exception scf_density_matrix load_dataset).

(** X3.  The entries of the dumped dictionaries, index by index, in a run
    in which nothing leaves the wrapper: the
    densities dictionary maps [k] to the matrix the routine returned for
    item [k], and has no entry when item [k] does not exist or the routine
    raised; the errors dictionary maps [k] to the message built from [k]
    and the exception, and has no entry otherwise. *)
Theorem artifact_entries ds c :
  load_dataset "QM7" "data" = Returned ds →
  Forall (contained is_Exception scf_density_matrix) ds →
  ∃ out,
    dumps (trace (run (PoolRuns c))) = [("densities.pkl", out)]
    ∧ ∀ k,
        PyDict.to_map (densities out) !! k
        = (atoms ← ds !! k;
           match scf_density_matrix atoms "sto-3g" with
           | Returned density_matrix => Some (Some density_matrix)
           | Raised _ => None
           end)
        ∧ PyDict.to_map (errors out) !! k
          = (atoms ← ds !! k;
             match scf_density_matrix atoms "sto-3g" with
             | Returned _ => None
             | Raised e =>
                 Some ("Error computing density for molecule " +:+ pretty k
                         +:+ ": " +:+ str e)
             end).
Proof.
  intros Hload Hc.
  destruct (run_artifact str is_Exception scf_density_matrix load_dataset
              ds c Hload Hc)
    as (results & Hg & _ & _ & Hdump).
  eexists. split; [exact Hdump|]. intros k. cbn [densities errors].
  split.
  - by apply (run_densities_lookup str is_Exception scf_density_matrix ds).
  - by rewrite (run_errors_lookup str is_Exception scf_density_matrix ds).
Qed.

(** X4.  In a run in which nothing leaves the wrapper the keys of both
    dumped dictionaries are in ascending order: items enter the
    dictionaries in the order of the dataset. *)
Theorem artifact_keys_ascending ds c :
  load_dataset "QM7" "data" = Returned ds →
  Forall (contained is_Exception scf_density_matrix) ds →
  ∃ out,
    dumps (trace (run (PoolRuns c))) = [("densities.pkl", out)]
    ∧ StronglySorted lt (PyDict.keys (densities out))
    ∧ StronglySorted lt (PyDict.keys (errors out)).
Proof.
  intros Hload Hc.
  destruct (run_artifact str is_Exception scf_density_matrix load_dataset
              ds c Hload Hc)
    as (results & Hg & _ & _ & Hdump).
  eexists. split; [exact Hdump|]. cbn [densities errors].
  rewrite separate_results_items by by eapply collected_NoDup.
  assert (StronglySorted lt (results.*1.*1)) as Hsorted.
  { rewrite (collected_indices str is_Exception scf_density_matrix ds) by done.
    apply StronglySorted_lt_seq. }
  split; apply omap_items_sorted; try done.
  - intros [[idx dm] [msg|]] kv; simpl; by intros [= <-].
  - intros [[idx dm] [msg|]] kv; simpl; by intros [= <-].
Qed.

(** The last line on the console. *)
Lemma main_last_line ds c results :
  load_dataset "QM7" "data" = Returned ds →
  gather is_Exception (result <$> (wrapper <$> work_list ds)) = Returned results →
  last (trace (run (PoolRuns c)))
  = Some (EvPrint
            (if PyDict.truthy (separate_results results).2
             then "Errors encountered for indices: "
                    +:+ repr_list (PyDict.keys (separate_results results).2)
             else "Summary: "
                    +:+ pretty (PyDict.len (separate_results results).1)
                    +:+ "/" +:+ pretty (length ds)
                    +:+ " successful computations")).
Proof.
  intros Hload Hg.
  rewrite (main_trace str is_Exception scf_density_matrix load_dataset ds c results)
    by done.
  unfold trace. cbn [fst]. rewrite !last_app.
  by destruct (PyDict.truthy (separate_results results).2).
Qed.

(** The records of a run whose items all satisfy [P]. *)
Lemma collected_Forall (ds : list Atoms) results
    (P : outcome PyException Density → Prop)
    (Q : nat * option Density * option string → Prop) :
  gather is_Exception (result <$> (wrapper <$> work_list ds)) = Returned results →
  (∀ a, a ∈ ds → P (scf_density_matrix a "sto-3g")) →
  (∀ i a, P (scf_density_matrix a "sto-3g") →
     Q match scf_density_matrix a "sto-3g" with
       | Returned density_matrix => (i, Some density_matrix, None)
       | Raised e => (i, None, Some (error_message str i e))
       end) →
  Forall Q results.
Proof.
  intros Hg HP HQ.
  rewrite (collected_records str is_Exception scf_density_matrix ds results Hg).
  apply Forall_fmap, Forall_forall. intros ia Hin.
  apply elem_of_lookup_imap in Hin as (i & a & -> & Hi).
  apply HQ, HP. by eapply list_elem_of_lookup_2.
Qed.

(** X5.  In a run in which nothing leaves the wrapper, the line that
    lists the failed indices is the last line of the console exactly when
    at least one item failed, and it lists the keys of the errors
    dictionary; otherwise the console ends with the summary line. *)
Theorem failed_indices_line ds c :
  load_dataset "QM7" "data" = Returned ds →
  Forall (contained is_Exception scf_density_matrix) ds →
  ∃ out,
    dumps (trace (run (PoolRuns c))) = [("densities.pkl", out)]
    ∧ (PyDict.truthy (errors out) = true
       ↔ ∃ k atoms e,
           ds !! k = Some atoms
           ∧ scf_density_matrix atoms "sto-3g" = Raised e)
    ∧ last (trace (run (PoolRuns c)))
      = Some (EvPrint
                (if PyDict.truthy (errors out)
                 then "Errors encountered for indices: "
                        +:+ repr_list (PyDict.keys (errors out))
                 else "Summary: " +:+ pretty (successful (meta out))
                        +:+ "/" +:+ pretty (length ds)
                        +:+ " successful computations")).
Proof.
  intros Hload Hc.
  destruct (run_artifact str is_Exception scf_density_matrix load_dataset
              ds c Hload Hc)
    as (results & Hg & _ & _ & Hdump).
  eexists. split; [exact Hdump|].
  cbn [densities errors meta successful].
  split; [|by apply main_last_line].
  pose proof (run_errors_lookup str is_Exception scf_density_matrix ds results) as Hlook.
  split.
  - destruct (separate_results results).2 as [|[k msg] es] eqn:Hes; [done|].
    intros _. specialize (Hlook k Hg).
    unfold PyDict.to_map in Hlook. simpl in Hlook.
    rewrite lookup_insert_eq in Hlook. symmetry in Hlook.
    apply bind_Some in Hlook as (atoms & Hk & Hscf).
    exists k, atoms.
    destruct (scf_density_matrix atoms "sto-3g") as [|e]; [done|]. eauto.
  - intros (k & atoms & e & Hk & Hscf). specialize (Hlook k Hg).
    rewrite Hk in Hlook. simpl in Hlook. rewrite Hscf in Hlook.
    by destruct (separate_results results).2.
Qed.

(** X6.  When the routine returns for every item, the errors dictionary
    is empty, the densities dictionary has the keys [0, ..., N-1] in this
    order, the counts are [N] and [0], and the console ends with the
    summary line: no line of failed indices is printed. *)
Theorem all_items_succeed ds c :
  load_dataset "QM7" "data" = Returned ds →
  (∀ atoms, atoms ∈ ds →
     ∃ density_matrix,
       scf_density_matrix atoms "sto-3g" = Returned density_matrix) →
  ∃ out,
    dumps (trace (run (PoolRuns c))) = [("densities.pkl", out)]
    ∧ errors out = PyDict.empty
    ∧ PyDict.keys (densities out) = seq 0 (length ds)
    ∧ successful (meta out) = length ds
    ∧ failed (meta out) = 0
    ∧ last (trace (run (PoolRuns c)))
      = Some (EvPrint ("Summary: " +:+ pretty (length ds) +:+ "/"
                         +:+ pretty (length ds)
                         +:+ " successful computations")).
Proof.
  intros Hload Hall.
  assert (Forall (contained is_Exception scf_density_matrix) ds) as Hc.
  { apply Forall_forall. intros atoms [d Hd]%Hall e He. congruence. }
  destruct (run_artifact str is_Exception scf_density_matrix load_dataset
              ds c Hload Hc)
    as (results & Hg & _ & _ & Hdump).
  eexists. split; [exact Hdump|].
  cbn [densities errors meta successful failed].
  rewrite (main_last_line ds c results) by done.
  assert (Forall (λ r : nat * option Density * option string, r.2 = None)
            results) as Hnone.
  { apply (collected_Forall ds results (λ o, ∃ d, o = Returned d)); [done..|].
    by intros i a [d ->]. }
  rewrite separate_results_items by by eapply collected_NoDup.
  cbn [fst snd].
  rewrite (omap_all_None (λ r, (λ msg, (r.1.1, msg)) <$> r.2) results)
    by (eapply Forall_impl; [done|]; by intros [[??]?] [= ->]).
  rewrite (omap_all_Some _ (λ r, (r.1.1, r.1.2)) results)
    by (eapply Forall_impl; [done|]; by intros [[??]?] [= ->]).
  assert (PyDict.keys ((λ r : nat * option Density * option string,
                          (r.1.1, r.1.2)) <$> results)
          = seq 0 (length ds)) as Hkeys.
  { unfold PyDict.keys. rewrite <-list_fmap_compose.
    rewrite <-(collected_indices str is_Exception scf_density_matrix ds results Hg).
    by rewrite <-list_fmap_compose. }
  unfold PyDict.len. rewrite length_fmap.
  rewrite (collected_length str is_Exception scf_density_matrix ds results Hg).
  by split_and!.
Qed.

(** X7.  When the routine raises an instance of [Exception] for every
    item, the run still returns normally and dumps: the densities
    dictionary is empty, the errors dictionary has the keys [0, ..., N-1]
    in this order, and the counts are [0] and [N]. *)
Theorem all_items_fail ds c :
  load_dataset "QM7" "data" = Returned ds →
  (∀ atoms, atoms ∈ ds →
     ∃ e, scf_density_matrix atoms "sto-3g" = Raised e
          ∧ is_Exception e = true) →
  ∃ out,
    result (run (PoolRuns c)) = Returned ()
    ∧ dumps (trace (run (PoolRuns c))) = [("densities.pkl", out)]
    ∧ densities out = PyDict.empty
    ∧ PyDict.keys (errors out) = seq 0 (length ds)
    ∧ successful (meta out) = 0
    ∧ failed (meta out) = length ds.
Proof.
  intros Hload Hall.
  assert (Forall (contained is_Exception scf_density_matrix) ds) as Hc.
  { apply Forall_forall. intros atoms (e & He & Hcls)%Hall e' He'.
    congruence. }
  destruct (run_artifact str is_Exception scf_density_matrix load_dataset
              ds c Hload Hc)
    as (results & Hg & _ & Hres & Hdump).
  eexists. split; [exact Hres|]. split; [exact Hdump|].
  cbn [densities errors meta successful failed].
  assert (Forall (λ r : nat * option Density * option string,
                    ∃ msg, r.2 = Some msg) results) as Hsome.
  { apply (collected_Forall ds results (λ o, ∃ e, o = Raised e)); [done| |].
    - intros a (e & He & _)%Hall. by exists e.
    - intros i a [e ->]. by eexists. }
  rewrite separate_results_items by by eapply collected_NoDup.
  cbn [fst snd].
  rewrite (omap_all_None
             (λ r : nat * option Density * option string,
                match r.2 with None => Some (r.1.1, r.1.2) | Some _ => None end)
             results)
    by (eapply Forall_impl; [done|]; by intros [[??]?] [? [= ->]]).
  assert (PyDict.keys
            (omap (λ r : nat * option Density * option string,
                     (λ msg, (r.1.1, msg)) <$> r.2) results)
          = seq 0 (length ds)) as Hkeys.
  { unfold PyDict.keys. rewrite list_fmap_omap.
    rewrite (omap_all_Some _ (λ r, r.1.1) results)
      by (eapply Forall_impl; [done|]; by intros [[??]?] [? [= ->]]).
    rewrite <-(collected_indices str is_Exception scf_density_matrix ds results Hg).
    by rewrite <-list_fmap_compose. }
  split_and!; try done.
  unfold PyDict.len. rewrite <-(length_fmap fst).
  fold (PyDict.keys (omap (λ r : nat * option Density * option string,
                     (λ msg, (r.1.1, msg)) <$> r.2) results)).
  by rewrite Hkeys, length_seq.
Qed.

End run_properties.

(* ===================================================================== *)
(* Counting and console facts                                            *)
(* ===================================================================== *)

Lemma length_omap_imap {A B C C'} (h : B → option C) (g : A → option C')
    (f : nat → A → B) (l : list A) :
  (∀ i a, is_Some (h (f i a)) ↔ is_Some (g a)) →
  length (omap h (imap f l)) = length (omap g l).
Proof.
  revert f. induction l as [|a l IH]; intros f Hfg; [done|].
  cbn [imap omap list_omap].
  pose proof (Hfg 0 a) as H0.
  specialize (IH (f ∘ S) (λ i a', Hfg (S i) a')).
  destruct (h (f 0 a)) as [y|], (g a) as [z|]; cbn [length]; auto.
  - destruct H0 as [H0 _]. by destruct H0 as [? [=]].
  - destruct H0 as [_ H0]. by destruct H0 as [? [=]].
Qed.

(** Visiting the positions of a list in order is visiting the list. *)
Lemma seq_bind_lookup {A B} (g : A → list B) (l : list A) :
  (i ← seq 0 (length l); default [] (g <$> l !! i)) = l ≫= g.
Proof.
  induction l as [|a l IH]; [done|].
  cbn [length seq]. rewrite !bind_cons. cbn [lookup list_lookup]. simpl.
  f_equal. rewrite <-fmap_S_seq, list_fmap_bind. exact IH.
Qed.

(** The calls of [print] for the records with a message have the values
    of the errors items as arguments, in order. *)
Lemma error_lines {Density}
    (results : list (nat * option Density * option string)) :
  (r ← results;
   match r.2 with Some msg => [EvPrint (D:=Density) msg] | None => [] end)
  = (λ kv : nat * string, EvPrint kv.2)
      <$> omap (λ r : nat * option Density * option string,
                  (λ msg, (r.1.1, msg)) <$> r.2) results.
Proof.
  induction results as [|[[idx dm] [msg|]] results IH]; [done|..];
    rewrite bind_cons; cbn [omap list_omap fmap option_fmap option_map snd];
    by rewrite IH.
Qed.

Section count_and_console.
Context {Atoms Density PyException : Type}.
Variable str : PyException → string.
Variable is_Exception : PyException → bool.
Variable scf_density_matrix : Atoms → string → outcome PyException Density.
Variable load_dataset : string → string → outcome PyException (list Atoms).

Local Abbreviation wrapper := (compute_density_safe str is_Exception scf_density_matrix).
Local Abbreviation work_list := (imap (λ (i : nat) (atoms : Atoms), (i, atoms))).
Local Abbreviation run := (main str is_Exception scf_density_matrix load_dataset).

(** X8.  In a run in which nothing leaves the wrapper the counts of the
    metadata are the true counts: [successful] is the number of items of
    the dataset for which the routine returns, [failed] the number of
    items for which it raises. *)
Theorem metadata_counts_items ds c :
  load_dataset "QM7" "data" = Returned ds →
  Forall (contained is_Exception scf_density_matrix) ds →
  ∃ out,
    dumps (trace (run (PoolRuns c))) = [("densities.pkl", out)]
    ∧ successful (meta out)
      = length (omap (λ atoms,
                        match scf_density_matrix atoms "sto-3g" with
                        | Returned density_matrix => Some density_matrix
                        | Raised _ => None
                        end) ds)
    ∧ failed (meta out)
      = length (omap (λ atoms,
                        match scf_density_matrix atoms "sto-3g" with
                        | Returned _ => None
                        | Raised e => Some e
                        end) ds).
Proof.
  intros Hload Hc.
  destruct (run_artifact str is_Exception scf_density_matrix load_dataset
              ds c Hload Hc) as (results & Hg & _ & _ & Hdump).
  eexists. split; [exact Hdump|]. cbn [meta successful failed].
  rewrite separate_results_items by by eapply collected_NoDup.
  cbn [fst snd]. unfold PyDict.len.
  rewrite (collected_records str is_Exception scf_density_matrix ds results Hg).
  rewrite fmap_imap.
  split; apply length_omap_imap; intros i a; unfold compose; cbn [fst snd];
    destruct (scf_density_matrix a "sto-3g"); simpl;
    split; intros [? [=]]; by eexists.
Qed.

(** X9.  In a run in which nothing leaves the wrapper and whose
    completion order lists every position once, the calls of [print] that
    the workers make between the creation of the pool and the return of
    [pool.map] are, up to order, one call for each item of the errors
    dictionary, with the stored message as its argument, and no call for
    an item that succeeded.  The statement is on the calls: what the
    console shows of the workers' unflushed output is outside the
    trace. *)
Theorem workers_print_the_errors ds c :
  load_dataset "QM7" "data" = Returned ds →
  Forall (contained is_Exception scf_density_matrix) ds →
  c ≡ₚ seq 0 (length ds) →
  ∃ out before workers after,
    dumps (trace (run (PoolRuns c))) = [("densities.pkl", out)]
    ∧ trace (run (PoolRuns c))
      = before ++ EvPoolCreated 32 :: workers
          ++ EvPoolMapReturned (length ds) :: after
    ∧ (EvPoolCreated 32 ∉ before)
    ∧ (EvPoolMapReturned (length ds) ∉ workers)
    ∧ workers ≡ₚ (λ kv : nat * string, EvPrint kv.2) <$> errors out.
Proof.
  intros Hload Hc Hperm.
  destruct (run_artifact str is_Exception scf_density_matrix load_dataset
              ds c Hload Hc) as (results & Hg & _ & _ & Hdump).
  eexists.
  exists [EvPrint "Loading QM7 dataset...";
          EvPrint ("Loaded " +:+ pretty (length ds) +:+ " molecules");
          EvPrint ("Using " +:+ pretty 32 +:+ " parallel processes");
          EvPrint "Computing SCF density matrices in parallel..."].
  exists (i ← c; default [] (trace <$> (wrapper <$> work_list ds) !! i)).
  eexists. split; [exact Hdump|].
  assert ((i ← c; default [] (trace <$> (wrapper <$> work_list ds) !! i))
          ≡ₚ (λ kv : nat * string, EvPrint kv.2)
               <$> (separate_results results).2) as Hworkers; last first.
  { split_and!.
    - rewrite (main_trace str is_Exception scf_density_matrix load_dataset ds c results)
        by done.
      unfold trace. cbn [fst app]. reflexivity.
    - rewrite !not_elem_of_cons. split_and!; try done. apply not_elem_of_nil.
    - rewrite Hworkers. by intros (kv & ? & _)%list_elem_of_fmap.
    - exact Hworkers. }
  - rewrite Hperm.
    rewrite separate_results_items by by eapply collected_NoDup.
    cbn [snd]. rewrite <-error_lines.
    rewrite (collected_records str is_Exception scf_density_matrix ds results Hg).
    rewrite list_fmap_bind.
    rewrite <-(length_imap (λ (i : nat) (atoms : Atoms), (i, atoms)) ds).
    rewrite <-(length_fmap wrapper), seq_bind_lookup, list_fmap_bind.
    apply reflexive_eq, Forall_bind_ext, Forall_forall.
    intros ia (i & a & -> & Hi)%elem_of_lookup_imap. unfold compose.
    apply wrapper_trace. cbn [snd]. rewrite Forall_forall in Hc.
    apply Hc. by eapply list_elem_of_lookup_2.
Qed.

End count_and_console.

(* ===================================================================== *)
(* The text of the failure message                                       *)
(* ===================================================================== *)

(** A digit in front of a string without colon gives one without. *)
Lemma no_colon_digit (x : N) (s : string) :
  (∀ s1 s2, s ≠ s1 +:+ String ":"%char s2) →
  ∀ s1 s2, String (pretty_N_char x) s ≠ s1 +:+ String ":"%char s2.
Proof.
  intros Hs [|c s1] s2; simpl.
  - unfold pretty_N_char. by repeat case_match.
  - intros [= _ Heq]. by eapply Hs.
Qed.

Lemma no_colon_pretty_N_go (x : N) (s : string) :
  (∀ s1 s2, s ≠ s1 +:+ String ":"%char s2) →
  ∀ s1 s2, pretty_N_go x s ≠ s1 +:+ String ":"%char s2.
Proof.
  revert s. induction (N.lt_wf_0 x) as [x _ IH]; intros s Hs.
  destruct (decide (x = 0)%N) as [->|Hx].
  - by rewrite pretty_N_go_0.
  - rewrite pretty_N_go_step by lia.
    apply IH; [apply N.div_lt; lia|]. by apply no_colon_digit.
Qed.

(** The decimal numeral of a number has no colon. *)
Lemma no_colon_pretty_nat (n : nat) (s1 s2 : string) :
  pretty n ≠ s1 +:+ String ":"%char s2.
Proof.
  unfold pretty, pretty_nat, pretty, pretty_N. case_decide.
  - destruct s1 as [|c [|c' s1]]; simpl; discriminate.
  - apply no_colon_pretty_N_go. intros [|c s1'] s2'; discriminate.
Qed.

(** Two strings without colon that are followed by a colon are found
    again from the concatenations. *)
Lemma app_colon_inj (u v x y : string) :
  (∀ s1 s2, u ≠ s1 +:+ String ":"%char s2) →
  (∀ s1 s2, v ≠ s1 +:+ String ":"%char s2) →
  u +:+ String ":"%char x = v +:+ String ":"%char y → u = v ∧ x = y.
Proof.
  revert v. induction u as [|c u IH]; intros [|c' v] Hu Hv; simpl.
  - by intros [= ->].
  - intros [= <- _]. by destruct (Hv "" v).
  - intros [= -> _]. by destruct (Hu "" u).
  - intros [= <- Heq]. destruct (IH v) as [-> ->]; [| |done|done].
    + intros s1 s2 ->. by apply (Hu (String c s1) s2).
    + intros s1 s2 ->. by apply (Hv (String c s1) s2).
Qed.

(** X10.  The failure message determines the index and the text of the
    exception: two messages are equal exactly when they are built from
    the same index and exceptions with the same text. *)
Theorem error_message_identifies_item {PyException : Type}
    (str : PyException → string) (i j : nat) (e e' : PyException) :
  error_message str i e = error_message str j e'
  ↔ i = j ∧ str e = str e'.
Proof.
  unfold error_message. split; [|by intros [-> ->]].
  cbn [String.append]. intros Heq. simplify_eq.
  match goal with
  | H : _ +:+ _ = _ +:+ _ |- _ =>
      apply app_colon_inj in H as [Hi He]; try apply no_colon_pretty_nat
  end.
  apply (inj pretty) in Hi. by simplify_eq.
Qed.

(* ===================================================================== *)
(* The closing lines of the console                                      *)
(* ===================================================================== *)

(** Up to the first occurrence of [x], two splittings of a list at [x]
    agree. *)
Lemma first_occurrence_prefix {A} (x : A) (l1 l2 k1 k2 : list A) :
  x ∉ l1 → l1 ++ x :: l2 = k1 ++ x :: k2 → ∃ k, k1 = l1 ++ k.
Proof.
  revert k1. induction l1 as [|a l1 IH]; intros k1 Hx Heq; [by exists k1|].
  apply not_elem_of_cons in Hx as [Hne Hx].
  destruct k1 as [|b k1]; simplify_eq/=.
  destruct (IH k1 Hx) as [k ->]; [done|]. by exists k.
Qed.

Section closing_lines.
Context {Atoms Density PyException : Type}.
Variable str : PyException → string.
Variable is_Exception : PyException → bool.
Variable scf_density_matrix : Atoms → string → outcome PyException Density.
Variable load_dataset : string → string → outcome PyException (list Atoms).

Local Abbreviation wrapper := (compute_density_safe str is_Exception scf_density_matrix).
Local Abbreviation work_list := (imap (λ (i : nat) (atoms : Atoms), (i, atoms))).
Local Abbreviation run := (main str is_Exception scf_density_matrix load_dataset).

(** Every line of a worker is a failure message. *)
Lemma workers_lines (args : list (nat * Atoms)) (c : list nat) ev :
  ev ∈ (i ← c; default [] (trace <$> (wrapper <$> args) !! i)) →
  ∃ idx e, ev = EvPrint (error_message str idx e).
Proof.
  intros (i & Hev & _)%list_elem_of_bind.
  rewrite list_lookup_fmap in Hev.
  destruct (args !! i) as [[idx a]|]; cbn -[compute_density_safe] in Hev;
    [|by apply elem_of_nil in Hev].
  rewrite compute_density_safe_unfold in Hev.
  destruct (scf_density_matrix a "sto-3g") as [d|e];
    [|destruct (is_Exception e)]; simpl in Hev.
  - by apply elem_of_nil in Hev.
  - apply list_elem_of_singleton in Hev. eauto.
  - by apply elem_of_nil in Hev.
Qed.

(** A run that ends before [pool.map] returns has not printed the line
    that announces the saved results. *)
Lemma no_done_line_before_return (ds : list Atoms) (c : list nat) :
  EvPrint "Done! Results saved to densities.pkl"
  ∉ [EvPrint "Loading QM7 dataset...";
     EvPrint ("Loaded " +:+ pretty (length ds) +:+ " molecules");
     EvPrint ("Using " +:+ pretty 32 +:+ " parallel processes");
     EvPrint "Computing SCF density matrices in parallel...";
     EvPoolCreated (D:=Density) 32]
    ++ (i ← c; default [] (trace <$> (wrapper <$> work_list ds) !! i)).
Proof.
  rewrite not_elem_of_app, !not_elem_of_cons. split_and!;
    try (cbn [String.append]; discriminate); try apply not_elem_of_nil.
  intros (idx & e & [=])%workers_lines.
Qed.

(** X11.  Whatever the loader and the pool do, the line that announces
    the saved results is printed only after the dump: wherever it occurs
    in the trace of a run, the structure has been dumped to
    [densities.pkl] before it.  A run that fails never prints it. *)
Theorem done_line_follows_dump pool t1 t2 :
  trace (run pool)
  = t1 ++ EvPrint "Done! Results saved to densities.pkl" :: t2 →
  ∃ out, ("densities.pkl", out) ∈ dumps t1.
Proof.
  intros Htrace.
  assert (EvPrint "Done! Results saved to densities.pkl" ∈ trace (run pool))
    as Hin by (rewrite Htrace; set_solver).
  destruct (load_dataset "QM7" "data") as [ds|e] eqn:Hload;
    [destruct pool as [c|e|c e];
     [destruct (collected_or_lost str is_Exception scf_density_matrix ds)
        as [[results Hg]|Hg]|..]|].
  - clear Hin.
    rewrite (main_trace str is_Exception scf_density_matrix load_dataset ds c results)
      in Htrace by done.
    unfold trace in Htrace. cbn [fst] in Htrace.
    match type of Htrace with
    | ?A ++ ?W ++ [?ret; ?p1; ?p2; ?p3; ?dump; ?done; ?summary] ++ ?T = _ =>
        assert (A ++ W ++ [ret; p1; p2; p3; dump; done; summary] ++ T
                = (A ++ W ++ [ret; p1; p2; p3; dump]) ++ done :: summary :: T)
          as Hsplit by (by rewrite <-!app_assoc);
        rewrite Hsplit in Htrace; clear Hsplit
    end.
    apply first_occurrence_prefix in Htrace as [k ->].
    + eexists. rewrite !dumps_app, !elem_of_app. left. right. right.
      cbn [dumps omap list_omap]. constructor.
    + rewrite !not_elem_of_app, !not_elem_of_cons. split_and!;
        try (cbn [String.append]; discriminate); try apply not_elem_of_nil.
      intros (idx & e & [=])%workers_lines.
  - rewrite (main_task_lost str is_Exception scf_density_matrix
               load_dataset ds c) in Hin by done.
    cbn [trace fst] in Hin. by apply no_done_line_before_return in Hin.
  - unfold main, mbind, IO_bind, print, emit, call, raise in Hin.
    rewrite Hload in Hin. cbn [trace fst pool_map raise app] in Hin.
    rewrite !elem_of_cons in Hin.
    destruct Hin as [Hin|[Hin|[Hin|[Hin|Hin]]]];
      try (cbn [String.append] in Hin; discriminate).
    by apply elem_of_nil in Hin.
  - rewrite (main_pool_map_fails_trace str is_Exception scf_density_matrix
               load_dataset ds c e) in Hin by done.
    cbn [trace fst] in Hin. by apply no_done_line_before_return in Hin.
  - rewrite (main_load_fails str is_Exception scf_density_matrix load_dataset e) in Hin
      by done.
    apply list_elem_of_singleton in Hin. discriminate.
Qed.

End closing_lines.

(* ===================================================================== *)
(* The further properties on concrete runs                               *)
(* ===================================================================== *)

Lemma artifact_entries_witness :
  Demo.load_dataset "QM7" "data" = Returned Demo.qm5
  ∧ Forall (contained Demo.is_Exception Demo.scf_density_matrix) Demo.qm5
  ∧ ∃ out,
      dumps (trace (DemoRun.main_qm5 (PoolRuns [2; 4; 0; 3; 1])))
      = [("densities.pkl", out)]
      ∧ PyDict.to_map (densities out) !! 1 = Some (Some 16)
      ∧ PyDict.to_map (errors out) !! 1 = None
      ∧ PyDict.to_map (densities out) !! 2 = None
      ∧ PyDict.to_map (errors out) !! 2
        = Some "Error computing density for molecule 2: molecule has no atoms"
      ∧ PyDict.to_map (densities out) !! 5 = None
      ∧ PyDict.to_map (errors out) !! 5 = None.
Proof.
  assert (Forall (contained Demo.is_Exception Demo.scf_density_matrix)
            Demo.qm5) as Hc by demo_contained.
  split_and!; [reflexivity|exact Hc|].
  destruct (artifact_entries Demo.str Demo.is_Exception
              Demo.scf_density_matrix Demo.load_dataset Demo.qm5
              [2; 4; 0; 3; 1] eq_refl Hc)
    as (out & Hdump & Hk).
  exists out. split; [exact Hdump|].
  exact (conj (proj1 (Hk 1)) (conj (proj2 (Hk 1))
          (conj (proj1 (Hk 2)) (conj (proj2 (Hk 2))
            (conj (proj1 (Hk 5)) (proj2 (Hk 5))))))).
Defined.

Lemma artifact_keys_ascending_witness :
  Demo.load_dataset "QM7" "data" = Returned Demo.qm5
  ∧ Forall (contained Demo.is_Exception Demo.scf_density_matrix) Demo.qm5
  ∧ ∃ out,
      dumps (trace (DemoRun.main_qm5 (PoolRuns [2; 4; 0; 3; 1])))
      = [("densities.pkl", out)]
      ∧ StronglySorted lt (PyDict.keys (densities out))
      ∧ StronglySorted lt (PyDict.keys (errors out)).
Proof.
  split_and!; [reflexivity|demo_contained|].
  apply (artifact_keys_ascending Demo.str Demo.is_Exception
           Demo.scf_density_matrix Demo.load_dataset Demo.qm5
           [2; 4; 0; 3; 1]); [reflexivity|demo_contained].
Defined.

Lemma failed_indices_line_witness :
  Demo.load_dataset "QM7" "data" = Returned Demo.qm5
  ∧ Forall (contained Demo.is_Exception Demo.scf_density_matrix) Demo.qm5
  ∧ ∃ out,
      dumps (trace (DemoRun.main_qm5 (PoolRuns [2; 4; 0; 3; 1])))
      = [("densities.pkl", out)]
      ∧ (PyDict.truthy (errors out) = true
         ↔ ∃ k atoms e,
             Demo.qm5 !! k = Some atoms
             ∧ Demo.scf_density_matrix atoms "sto-3g" = Raised e)
      ∧ last (trace (DemoRun.main_qm5 (PoolRuns [2; 4; 0; 3; 1])))
        = Some (EvPrint
                  (if PyDict.truthy (errors out)
                   then "Errors encountered for indices: "
                          +:+ repr_list (PyDict.keys (errors out))
                   else "Summary: " +:+ pretty (successful (meta out))
                          +:+ "/" +:+ pretty 5
                          +:+ " successful computations")).
Proof.
  split_and!; [reflexivity|demo_contained|].
  apply (failed_indices_line Demo.str Demo.is_Exception
           Demo.scf_density_matrix Demo.load_dataset Demo.qm5
           [2; 4; 0; 3; 1]); [reflexivity|demo_contained].
Defined.

Lemma all_items_succeed_witness :
  Demo.load_repaired "QM7" "data" = Returned (<[2:=[1; 1]]> Demo.qm5)
  ∧ (∀ atoms, atoms ∈ <[2:=[1; 1]]> Demo.qm5 →
       ∃ density_matrix,
         Demo.scf_density_matrix atoms "sto-3g" = Returned density_matrix)
  ∧ ∃ out,
      dumps (trace (DemoRun.main_repaired (PoolRuns [2; 4; 0; 3; 1])))
      = [("densities.pkl", out)]
      ∧ errors out = PyDict.empty
      ∧ PyDict.keys (densities out) = [0; 1; 2; 3; 4]
      ∧ successful (meta out) = 5
      ∧ failed (meta out) = 0
      ∧ last (trace (DemoRun.main_repaired (PoolRuns [2; 4; 0; 3; 1])))
        = Some (EvPrint "Summary: 5/5 successful computations").
Proof.
  assert (∀ atoms, atoms ∈ <[2:=[1; 1]]> Demo.qm5 →
            ∃ density_matrix,
              Demo.scf_density_matrix atoms "sto-3g" = Returned density_matrix)
    as Hall.
  { intros atoms Hin. cbn in Hin.
    repeat (apply elem_of_cons in Hin as [->|Hin]; [by eexists|]).
    by apply elem_of_nil in Hin. }
  split; [reflexivity|]. split; [exact Hall|].
  exact (all_items_succeed Demo.str Demo.is_Exception Demo.scf_density_matrix
           Demo.load_repaired (<[2:=[1; 1]]> Demo.qm5) [2; 4; 0; 3; 1]
           eq_refl Hall).
Defined.

Lemma all_items_fail_witness :
  Demo.load_broken "QM7" "data" = Returned [[]; []; []]
  ∧ (∀ atoms, atoms ∈ [[]; []; []] →
       ∃ e, Demo.scf_density_matrix atoms "sto-3g" = Raised e
            ∧ Demo.is_Exception e = true)
  ∧ ∃ out,
      result (DemoRun.main_broken (PoolRuns [0; 1; 2])) = Returned ()
      ∧ dumps (trace (DemoRun.main_broken (PoolRuns [0; 1; 2])))
        = [("densities.pkl", out)]
      ∧ densities out = PyDict.empty
      ∧ PyDict.keys (errors out) = [0; 1; 2]
      ∧ successful (meta out) = 0
      ∧ failed (meta out) = 3.
Proof.
  assert (∀ atoms : Demo.Atoms, atoms ∈ [[]; []; []] →
            ∃ e, Demo.scf_density_matrix atoms "sto-3g" = Raised e
                 ∧ Demo.is_Exception e = true)
    as Hall.
  { intros atoms Hin.
    repeat (apply elem_of_cons in Hin as [->|Hin]; [by eexists|]).
    by apply elem_of_nil in Hin. }
  split; [reflexivity|]. split; [exact Hall|].
  exact (all_items_fail Demo.str Demo.is_Exception Demo.scf_density_matrix
           Demo.load_broken [[]; []; []] [0; 1; 2] eq_refl Hall).
Defined.

Lemma metadata_counts_items_witness :
  Demo.load_dataset "QM7" "data" = Returned Demo.qm5
  ∧ Forall (contained Demo.is_Exception Demo.scf_density_matrix) Demo.qm5
  ∧ ∃ out,
      dumps (trace (DemoRun.main_qm5 (PoolRuns [2; 4; 0; 3; 1])))
      = [("densities.pkl", out)]
      ∧ successful (meta out) = 4
      ∧ failed (meta out) = 1.
Proof.
  split_and!; [reflexivity|demo_contained|].
  apply (metadata_counts_items Demo.str Demo.is_Exception
           Demo.scf_density_matrix Demo.load_dataset Demo.qm5
           [2; 4; 0; 3; 1]); [reflexivity|demo_contained].
Defined.

Lemma workers_print_the_errors_witness :
  Demo.load_dataset "QM7" "data" = Returned Demo.qm5
  ∧ Forall (contained Demo.is_Exception Demo.scf_density_matrix) Demo.qm5
  ∧ [4; 3; 2; 1; 0] ≡ₚ seq 0 5
  ∧ ∃ out before workers after,
      dumps (trace (DemoRun.main_qm5 (PoolRuns [4; 3; 2; 1; 0])))
      = [("densities.pkl", out)]
      ∧ trace (DemoRun.main_qm5 (PoolRuns [4; 3; 2; 1; 0]))
        = before ++ EvPoolCreated 32 :: workers
            ++ EvPoolMapReturned 5 :: after
      ∧ (EvPoolCreated 32 ∉ before)
      ∧ (EvPoolMapReturned 5 ∉ workers)
      ∧ workers ≡ₚ (λ kv : nat * string, EvPrint kv.2) <$> errors out.
Proof.
  split_and!;
    [reflexivity|demo_contained|exact (reverse_Permutation (seq 0 5))|].
  apply (workers_print_the_errors Demo.str Demo.is_Exception
           Demo.scf_density_matrix Demo.load_dataset Demo.qm5
           [4; 3; 2; 1; 0]);
    [reflexivity|demo_contained|exact (reverse_Permutation (seq 0 5))].
Defined.

Lemma done_line_follows_dump_witness :
  trace (DemoRun.main_qm5 (PoolRuns [4; 3; 2; 1; 0]))
  = take 11 (trace (DemoRun.main_qm5 (PoolRuns [4; 3; 2; 1; 0])))
      ++ EvPrint "Done! Results saved to densities.pkl"
      :: drop 12 (trace (DemoRun.main_qm5 (PoolRuns [4; 3; 2; 1; 0])))
  ∧ ∃ out,
      ("densities.pkl", out)
      ∈ dumps (take 11 (trace (DemoRun.main_qm5 (PoolRuns [4; 3; 2; 1; 0])))).
Proof.
  split; [reflexivity|].
  exact (done_line_follows_dump Demo.str Demo.is_Exception Demo.scf_density_matrix
           Demo.load_dataset (PoolRuns [4; 3; 2; 1; 0])
           (take 11 (trace (DemoRun.main_qm5 (PoolRuns [4; 3; 2; 1; 0]))))
           (drop 12 (trace (DemoRun.main_qm5 (PoolRuns [4; 3; 2; 1; 0]))))
           eq_refl).
Defined.
